(** * Warbler: a shallow embedding of the persistence model, the feed and
      suggestion queries and the request handlers.

    Sources: [models.py] (tables [users], [messages], [follows], [likes]
    and the [User] helpers), [app.py] (the Flask views) and [forms.py]
    (the profile form).

    Tables are lists of rows in storage order.  The constraints the schema
    declares (primary keys, unique columns, foreign keys) are the
    well-formedness predicates of section "Schema constraints"; they are
    hypotheses of the theorems that need them, never built into the data.
    Integers (ids, timestamps) are [Z]; counts and LIMIT arguments are
    [nat]; text columns are [string], nullable ones [option string]. *)

From Stdlib Require Import ZArith List String Bool Lia PeanoNat.
From Stdlib Require Import Sorting.Sorted Sorting.Permutation.
Import ListNotations.
Local Open Scope string_scope.
Local Open Scope list_scope.
Local Open Scope Z_scope.

(* ================================================================== *)
(** ** Rows (models.py) *)

(** [class Follows]: the row says that [user_following_id] follows
    [user_being_followed_id]. *)
Module Follows.
Record t := mk {
  user_being_followed_id : Z;
  user_following_id : Z
}.
End Follows.

(** [class Likes]. *)
Module Likes.
Record t := mk {
  user_id : Z;
  message_id : Z
}.
End Likes.

(** [class User]: the columns. *)
Module User.
Record t := mk {
  id : Z;
  email : string;
  username : string;
  image_url : option string;
  header_image_url : option string;
  bio : option string;
  location : option string;
  password : string
}.
End User.

(** [class Message]. *)
Module Message.
Record t := mk {
  id : Z;
  text : string;
  timestamp : Z;
  user_id : Z
}.
End Message.

(** The database: the four tables. *)
Record DB := mkDB {
  users : list User.t;
  messages : list Message.t;
  follows : list Follows.t;
  likes : list Likes.t
}.

(* ================================================================== *)
(** ** External collaborators

    [flask_bcrypt], the WTForms validators and two [str] methods are
    library code outside the repository; they enter the model as an
    interface. *)

Class Externals := {
  (** [bcrypt.generate_password_hash(password)] with the salt it draws. *)
  generate_password_hash : string -> string -> string;
  (** [bcrypt.check_password_hash(pw_hash, password)]. *)
  check_password_hash : string -> string -> bool;
  (** [str.strip()]. *)
  strip : string -> string;
  (** [len(s)]. *)
  len : string -> nat;
  (** Does WTForms' [Email()] accept the value? *)
  Email : string -> bool;
  (** Does [URL(require_tld=False, schemes=["http", "https"])] accept it? *)
  URL : string -> bool
}.

(* ================================================================== *)
(** ** Python and SQL building blocks *)

(** Truthiness of a [str] or [None]. *)
Definition truthy (x : option string) : bool :=
  match x with
  | Some s => negb (s =? "")%string
  | None => false
  end.

(** [x or y] on values that are a [str] or [None]. *)
Definition py_or (x y : option string) : option string :=
  if truthy x then x else y.

(** [list.remove(x)]: drops the first element equal to [x]; [None] stands
    for the [ValueError] raised when there is none. *)
Fixpoint list_remove {A} (eqb : A -> A -> bool) (x : A) (l : list A)
  : option (list A) :=
  match l with
  | [] => None
  | y :: t =>
      if eqb y x then Some t
      else match list_remove eqb x t with
           | Some t' => Some (y :: t')
           | None => None
           end
  end.

(** [ORDER BY]: insertion of a row into an ordered result. *)
Fixpoint insert_by {A} (leb : A -> A -> bool) (x : A) (l : list A) : list A :=
  match l with
  | [] => [x]
  | y :: t => if leb x y then x :: l else y :: insert_by leb x t
  end.

(** [ORDER BY]: a stable sort of the rows in storage order. *)
Fixpoint order_by {A} (leb : A -> A -> bool) (l : list A) : list A :=
  match l with
  | [] => []
  | x :: t => insert_by leb x (order_by leb t)
  end.

(** [.limit(n)]. *)
Definition limit {A} (n : nat) (l : list A) : list A := firstn n l.

(** [set(...)] of ids, kept as a duplicate-free list. *)
Definition id_set (l : list Z) : list Z := nodup Z.eq_dec l.

(* ================================================================== *)
(** ** Queries and relationships (models.py) *)

(** [User.query.get(i)]. *)
Definition User_query_get (db : DB) (i : Z) : option User.t :=
  find (fun u => User.id u =? i) (users db).

(** [Message.query.get(i)]. *)
Definition Message_query_get (db : DB) (i : Z) : option Message.t :=
  find (fun m => Message.id m =? i) (messages db).

(** [User.following]: the join of [follows] with [users] on
    [user_following_id = self.id] and [user_being_followed_id = users.id]. *)
Definition following (db : DB) (u : User.t) : list User.t :=
  flat_map
    (fun f =>
       if Follows.user_following_id f =? User.id u
       then filter (fun c => Follows.user_being_followed_id f =? User.id c)
                   (users db)
       else [])
    (follows db).

(** [User.followers]: the join on [user_being_followed_id = self.id] and
    [user_following_id = users.id]. *)
Definition followers (db : DB) (u : User.t) : list User.t :=
  flat_map
    (fun f =>
       if Follows.user_being_followed_id f =? User.id u
       then filter (fun c => Follows.user_following_id f =? User.id c)
                   (users db)
       else [])
    (follows db).

(** [User.likes]: the messages joined through [likes]. *)
Definition user_likes (db : DB) (u : User.t) : list Message.t :=
  flat_map
    (fun l =>
       if Likes.user_id l =? User.id u
       then filter (fun m => Likes.message_id l =? Message.id m)
                   (messages db)
       else [])
    (likes db).

(** [User.is_followed_by]. *)
Definition is_followed_by (db : DB) (self other_user : User.t) : bool :=
  existsb (fun u => User.id u =? User.id other_user) (followers db self).

(** [User.is_following]. *)
Definition is_following (db : DB) (self other_user : User.t) : bool :=
  existsb (fun u => User.id u =? User.id other_user) (following db self).

(** [cls.query.filter_by(username=username).first()]. *)
Definition User_by_username (db : DB) (name : string) : option User.t :=
  find (fun u => (User.username u =? name)%string) (users db).

(** [User.authenticate]: [None] is the [False] of the source. *)
Definition User_authenticate `{Externals} (db : DB) (name pw : string)
  : option User.t :=
  match User_by_username db name with
  | Some user =>
      if check_password_hash (User.password user) pw then Some user else None
  | None => None
  end.

(** [User.signup]: the object handed to [db.session.add]; the id is given
    by the caller's flush, [salt] is what bcrypt draws. *)
Definition User_signup `{Externals} (new_id : Z) (salt : string)
    (name mail pw : string) (img : option string) : User.t :=
  let hashed_pwd := generate_password_hash salt pw in
  User.mk new_id mail name
          (py_or img (Some "/static/images/default-pic.png"))
          (Some "/static/images/warbler-hero.jpg")
          None None hashed_pwd.

(* ================================================================== *)
(** ** Follow suggestions (app.py, [suggested_users_for]) *)

(** [User.followers.any(id=i)] for the candidate row [c]:
    [EXISTS (SELECT 1 FROM follows, users AS users_1
             WHERE c.id = follows.user_being_followed_id
               AND users_1.id = follows.user_following_id
               AND users_1.id = i)]. *)
Definition followers_any_id (db : DB) (c : User.t) (i : Z) : bool :=
  existsb
    (fun f =>
       (User.id c =? Follows.user_being_followed_id f)
       && existsb
            (fun u1 => (User.id u1 =? Follows.user_following_id f)
                       && (User.id u1 =? i))
            (users db))
    (follows db).

(** The [.filter(...)] clause: [User.id != user.id] and
    [~User.followers.any(id=user.id)]. *)
Definition suggest_filter (db : DB) (user c : User.t) : bool :=
  negb (User.id c =? User.id user) && negb (followers_any_id db c (User.id user)).

(** [func.count(Follows.user_following_id)] of the group of [c] after the
    outer join on [Follows.user_being_followed_id == User.id]. *)
Definition follower_count (db : DB) (c : User.t) : nat :=
  List.length
    (filter (fun f => Follows.user_being_followed_id f =? User.id c)
            (follows db)).

(** [.order_by(func.count(...).desc(), User.id.asc())]. *)
Definition rank_leb (db : DB) (a b : User.t) : bool :=
  (follower_count db b <? follower_count db a)%nat
  || ((follower_count db a =? follower_count db b)%nat
      && (User.id a <=? User.id b)).

(** [suggested_users_for(user, limit)]; [user = None] is the falsy case. *)
Definition suggested_users_for (db : DB) (user : option User.t) (lim : nat)
  : list User.t :=
  match user with
  | None => []
  | Some u =>
      limit lim (order_by (rank_leb db) (filter (suggest_filter db u) (users db)))
  end.

(* ================================================================== *)
(** ** Requests, forms and responses *)

(** The Flask session: the value under [CURR_USER_KEY], if the key is set. *)
Definition session := option Z.

Inductive http_method := GET | POST.

(** What the views read from the request besides the path. *)
Record Request := mkRequest {
  method : http_method;
  csrf_ok : bool;                 (* Flask-WTF's token check *)
  referrer : option string        (* [request.referrer] *)
}.

(** A bound WTForms field: what was submitted and the resulting [.data]. *)
Record Field := mkField {
  raw_data : list string;
  data : option string
}.

(** [EditProfileForm] (forms.py) after binding the request over the
    defaults given by the view. *)
Record EditProfileForm := mkEditProfileForm {
  f_username : Field;
  f_email : Field;
  f_image_url : Field;
  f_header_image_url : Field;
  f_location : Field;
  f_bio : Field;
  f_password : Field
}.

(** Redirect targets. *)
Inductive location :=
| to_root                         (* "/" *)
| to_signup                       (* "/signup" *)
| to_user (i : Z)                 (* f"/users/{i}" *)
| to_user_following (i : Z)       (* f"/users/{i}/following" *)
| to_url (s : string).            (* a truthy [request.referrer] *)

(** Exceptions no view catches. *)
Inductive exn := ValueError | IntegrityError.

Inductive response :=
| render_home_anon
| render_home (msgs : list Message.t) (liked_ids : list Z)
              (suggested_users : list User.t)
| render_users_show (user : User.t) (msgs : list Message.t)
                    (liked_ids : list Z)
| render_users_edit (form : EditProfileForm)
| redirect (loc : location)
| abort_404                       (* [get_or_404] *)
| unhandled (e : exn).            (* the exception leaves the view *)

(** What a request leaves behind: the response, the flashed
    [(message, category)] pairs, the committed database, the session. *)
Record outcome := mkOut {
  out_response : response;
  out_flashes : list (string * string);
  out_db : DB;
  out_session : session
}.

(** [add_user_to_g]: the value of [g.user]. *)
Definition add_user_to_g (db : DB) (sess : session) : option User.t :=
  match sess with
  | Some i => User_query_get db i
  | None => None
  end.

(** [do_logout]. *)
Definition do_logout (sess : session) : session := None.

(** [request.referrer or fallback]. *)
Definition referrer_or (req : Request) (fallback : location) : location :=
  if truthy (referrer req)
  then match referrer req with Some s => to_url s | None => fallback end
  else fallback.

Definition unauthorized (db : DB) (sess : session) : outcome :=
  mkOut (redirect to_root) [("Access unauthorized.", "danger")] db sess.

(* ------------------------------------------------------------------ *)
(** *** forms.py *)

Definition DataRequired `{Externals} (f : Field) : bool :=
  match data f with
  | Some s => negb (s =? "")%string && negb (strip s =? "")%string
  | None => false
  end.

(** [Length(max=n)]. *)
Definition Length_max `{Externals} (n : nat) (f : Field) : bool :=
  match data f with
  | Some s => if (s =? "")%string then true else (len s <=? n)%nat
  | None => true
  end.

(** Does [Optional()] end the chain (blank submission)? *)
Definition Optional_stops `{Externals} (f : Field) : bool :=
  match raw_data f with
  | [] => true
  | s :: _ => (strip s =? "")%string
  end.

Definition Email_ok `{Externals} (f : Field) : bool :=
  match data f with
  | Some s => Email s
  | None => false
  end.

(** [url_or_root_path]. *)
Definition url_or_root_path `{Externals} (f : Field) : bool :=
  let d := strip (match py_or (data f) (Some "") with Some s => s | None => "" end) in
  if (d =? "")%string then true
  else if String.prefix "/" d then true
  else URL (match data f with Some s => s | None => "" end).

(** [EditProfileForm.validate()]: every field passes its chain. *)
Definition EditProfileForm_validate `{Externals} (form : EditProfileForm) : bool :=
  (DataRequired (f_username form) && Length_max 50 (f_username form))
  && (DataRequired (f_email form) && Email_ok (f_email form)
      && Length_max 120 (f_email form))
  && (Optional_stops (f_image_url form) || url_or_root_path (f_image_url form))
  && (Optional_stops (f_header_image_url form)
      || url_or_root_path (f_header_image_url form))
  && (Optional_stops (f_location form) || Length_max 100 (f_location form))
  && (Optional_stops (f_bio form) || Length_max 500 (f_bio form))
  && DataRequired (f_password form).

(** [form.validate_on_submit()]. *)
Definition validate_on_submit `{Externals} (req : Request) (form : EditProfileForm)
  : bool :=
  match method req with
  | POST => csrf_ok req && EditProfileForm_validate form
  | GET => false
  end.

(** The [.data] of a field that passed [DataRequired]. *)
Definition data_str (f : Field) : string :=
  match data f with Some s => s | None => "" end.

(* ================================================================== *)
(** ** Views (app.py) *)

(** [Message.timestamp.desc()]. *)
Definition ts_desc (a b : Message.t) : bool :=
  Message.timestamp b <=? Message.timestamp a.

(** [set(m.id for m in g.user.likes)], the empty set without a user. *)
Definition liked_ids_of (db : DB) (g_user : option User.t) : list Z :=
  match g_user with
  | Some u => id_set (map Message.id (user_likes db u))
  | None => []
  end.

(** [users_show]. *)
Definition users_show (db : DB) (sess : session) (user_id : Z) : outcome :=
  match User_query_get db user_id with
  | None => mkOut abort_404 [] db sess
  | Some user =>
      let msgs :=
        limit 100
          (order_by ts_desc
             (filter (fun m => Message.user_id m =? user_id) (messages db))) in
      mkOut (render_users_show user msgs (liked_ids_of db (add_user_to_g db sess)))
            [] db sess
  end.

(** Two loaded objects are the same object when they are the same row. *)
Definition same_user (a b : User.t) : bool := User.id a =? User.id b.

(** Equality of what [list.remove] compares: a user object or [None]. *)
Definition same_obj (a b : option User.t) : bool :=
  match a, b with
  | Some x, Some y => same_user x y
  | None, None => true
  | _, _ => false
  end.

(** [db.session.commit()] after [g.user.following] was changed to
    [current]: the unit of work deletes the [follows] rows of the objects
    that left the collection and inserts rows for those that joined it. *)
Definition commit_following (db : DB) (u : User.t) (current : list User.t) : DB :=
  let original := following db u in
  let deleted :=
    filter (fun o => negb (existsb (same_user o) current)) original in
  let added :=
    filter (fun c => negb (existsb (same_user c) original)) current in
  mkDB (users db) (messages db)
       (filter
          (fun f =>
             negb ((Follows.user_following_id f =? User.id u)
                   && existsb
                        (fun o => Follows.user_being_followed_id f =? User.id o)
                        deleted))
          (follows db)
        ++ map (fun c => Follows.mk (User.id c) (User.id u)) added)
       (likes db).

(** [add_follow]. *)
Definition add_follow (db : DB) (sess : session) (follow_id : Z) : outcome :=
  match add_user_to_g db sess with
  | None => unauthorized db sess
  | Some u =>
      match User_query_get db follow_id with
      | None => mkOut abort_404 [] db sess
      | Some followed_user =>
          let current := following db u ++ [followed_user] in
          mkOut (redirect (to_user_following (User.id u))) []
                (commit_following db u current) sess
      end
  end.

(** [stop_following]: [User.query.get] may give [None], and
    [list.remove] raises where the argument is not in the list. *)
Definition stop_following (db : DB) (sess : session) (follow_id : Z) : outcome :=
  match add_user_to_g db sess with
  | None => unauthorized db sess
  | Some u =>
      let followed_user := User_query_get db follow_id in
      match list_remove same_obj followed_user (map Some (following db u)) with
      | None => mkOut (unhandled ValueError) [] db sess
      | Some rest =>
          let current :=
            flat_map (fun o => match o with Some x => [x] | None => [] end) rest in
          mkOut (redirect (to_user_following (User.id u))) []
                (commit_following db u current) sess
      end
  end.

(** The [UPDATE users ... WHERE id = u.id] of a commit; [None] is the
    [IntegrityError] of the unique columns [username] and [email]. *)
Definition commit_user_update (db : DB) (u' : User.t) : option DB :=
  if existsb
       (fun r => negb (User.id r =? User.id u')
                 && ((User.username r =? User.username u')%string
                     || (User.email r =? User.email u')%string))
       (users db)
  then None
  else Some (mkDB (map (fun r => if User.id r =? User.id u' then u' else r)
                       (users db))
                  (messages db) (follows db) (likes db)).

(** [profile]. *)
Definition profile `{Externals} (db : DB) (sess : session) (req : Request)
    (form : EditProfileForm) : outcome :=
  match add_user_to_g db sess with
  | None => unauthorized db sess
  | Some g_user =>
      if validate_on_submit req form then
        match User_authenticate db (User.username g_user)
                                (data_str (f_password form)) with
        | None =>
            mkOut (render_users_edit form)
                  [("Incorrect password.", "danger")] db sess
        | Some _ =>
            let g_user' :=
              User.mk (User.id g_user)
                      (data_str (f_email form))
                      (data_str (f_username form))
                      (py_or (data (f_image_url form)) (User.image_url g_user))
                      (py_or (data (f_header_image_url form))
                             (User.header_image_url g_user))
                      (data (f_bio form))
                      (data (f_location form))
                      (User.password g_user) in
            match commit_user_update db g_user' with
            | Some db' =>
                mkOut (redirect (to_user (User.id g_user)))
                      [("Profile updated!", "success")] db' sess
            | None =>
                mkOut (render_users_edit form)
                      [("Username or email already taken.", "danger")] db sess
            end
        end
      else mkOut (render_users_edit form) [] db sess
  end.

(** [db.session.delete(user)] and the commit, with the cascades the schema
    declares: [messages.user_id], both columns of [follows] and
    [likes.user_id] reference [users.id] with ON DELETE CASCADE, and
    [likes.message_id] references [messages.id] with ON DELETE CASCADE. *)
Definition delete_user_cascade (db : DB) (u : User.t) : DB :=
  let gone :=
    filter (fun m => Message.user_id m =? User.id u) (messages db) in
  mkDB (filter (fun r => negb (User.id r =? User.id u)) (users db))
       (filter (fun m => negb (Message.user_id m =? User.id u)) (messages db))
       (filter
          (fun f => negb (Follows.user_being_followed_id f =? User.id u)
                    && negb (Follows.user_following_id f =? User.id u))
          (follows db))
       (filter
          (fun l => negb (Likes.user_id l =? User.id u)
                    && negb (existsb
                               (fun m => Likes.message_id l =? Message.id m)
                               gone))
          (likes db)).

(** [delete_user]. *)
Definition delete_user (db : DB) (sess : session) : outcome :=
  match add_user_to_g db sess with
  | None => unauthorized db sess
  | Some u =>
      mkOut (redirect to_signup) [] (delete_user_cascade db u) (do_logout sess)
  end.

(** Is there a [likes] row of this user for this message? *)
Definition like_row (uid mid : Z) (l : Likes.t) : bool :=
  (Likes.user_id l =? uid) && (Likes.message_id l =? mid).

(** [toggle_like]. *)
Definition toggle_like (db : DB) (sess : session) (req : Request)
    (message_id : Z) : outcome :=
  match add_user_to_g db sess with
  | None => unauthorized db sess
  | Some u =>
      match Message_query_get db message_id with
      | None => mkOut abort_404 [] db sess
      | Some msg =>
          if Message.user_id msg =? User.id u then
            mkOut (redirect (referrer_or req (to_user (User.id u))))
                  [("You cannot like your own message.", "warning")] db sess
          else
            let like := find (like_row (User.id u) message_id) (likes db) in
            let likes' :=
              match like with
              | Some _ =>
                  (* DELETE FROM likes WHERE user_id = ? AND message_id = ? *)
                  filter (fun l => negb (like_row (User.id u) message_id l))
                         (likes db)
              | None => likes db ++ [Likes.mk (User.id u) message_id]
              end in
            mkOut (redirect (referrer_or req to_root)) []
                  (mkDB (users db) (messages db) (follows db) likes') sess
      end
  end.

(** The message flashed with the fallback feed. *)
Definition feed_empty_notice : string :=
  "Your feed is empty. Here are recent posts—follow people to customize it!".

(** [homepage]. *)
Definition homepage (db : DB) (sess : session) : outcome :=
  match add_user_to_g db sess with
  | None => mkOut render_home_anon [] db sess
  | Some u =>
      let ids := map User.id (following db u) ++ [User.id u] in
      let msgs :=
        limit 100
          (order_by ts_desc
             (filter (fun m => existsb (Z.eqb (Message.user_id m)) ids)
                     (messages db))) in
      let fallback := match following db u with [] => true | _ :: _ => false end in
      let msgs := if fallback
                  then limit 50 (order_by ts_desc (messages db))
                  else msgs in
      let flashes := if fallback then [(feed_empty_notice, "info")] else [] in
      mkOut (render_home msgs (liked_ids_of db (Some u))
                         (suggested_users_for db (Some u) 5))
            flashes db sess
  end.

(* ================================================================== *)
(** ** Schema constraints (models.py) *)

(** Primary keys, unique columns and foreign keys of the four tables. *)
Record schema_ok (db : DB) : Prop := mkSchemaOk {
  pk_users : NoDup (map User.id (users db));
  uq_username : NoDup (map User.username (users db));
  uq_email : NoDup (map User.email (users db));
  pk_messages : NoDup (map Message.id (messages db));
  pk_follows : NoDup (follows db);
  pk_likes : NoDup (likes db);
  fk_messages :
    forall m, In m (messages db) ->
      In (Message.user_id m) (map User.id (users db));
  fk_follows :
    forall f, In f (follows db) ->
      In (Follows.user_being_followed_id f) (map User.id (users db))
      /\ In (Follows.user_following_id f) (map User.id (users db));
  fk_likes :
    forall l, In l (likes db) ->
      In (Likes.user_id l) (map User.id (users db))
      /\ In (Likes.message_id l) (map Message.id (messages db))
}.

(* ================================================================== *)
(** ** Vocabulary of the statements *)

(** [a] ranks no later than [b]: more followers, or as many and an id
    that is not larger. *)
Definition rank_before (db : DB) (a b : User.t) : Prop :=
  (follower_count db b < follower_count db a)%nat
  \/ (follower_count db a = follower_count db b /\ User.id a <= User.id b).

(** [a] is at least as recent as [b]. *)
Definition newer_eq (a b : Message.t) : Prop :=
  Message.timestamp b <= Message.timestamp a.

(** [top] is the first [n] rows of [pool] in the order [R]: it heads a
    sorted arrangement of the whole pool. *)
Definition top_of {A} (R : A -> A -> Prop) (n : nat) (pool top : list A) : Prop :=
  (exists rest, Permutation (top ++ rest) pool
                /\ StronglySorted R (top ++ rest))
  /\ List.length top = Nat.min n (List.length pool).

(** The message is by [u] or by a user [u] follows. *)
Definition by_self_or_followee (db : DB) (u : User.t) (m : Message.t) : bool :=
  (Message.user_id m =? User.id u)
  || existsb (fun v => is_following db u v && (Message.user_id m =? User.id v))
             (users db).

(** Does the user with id [uid] like the message with id [mid]? *)
Definition liked (db : DB) (uid mid : Z) : bool :=
  existsb (like_row uid mid) (likes db).

(** Number of [likes] rows for the pair. *)
Definition like_rows (db : DB) (uid mid : Z) : nat :=
  List.length (filter (like_row uid mid) (likes db)).

(* ================================================================== *)
(** ** A small database used by the examples

    Users 1 to 5.  User 4 has three followers, users 2 and 3 two each,
    user 1 none; user 1 follows user 5, who follows nobody. *)

Definition mk_user (i : Z) (name : string) : User.t :=
  User.mk i (name ++ "@example.com")%string name
          (Some "/static/images/default-pic.png")
          (Some "/static/images/warbler-hero.jpg") None None
          ("hash-of-" ++ name)%string.

Definition demo_db : DB :=
  mkDB [mk_user 1 "ann"; mk_user 2 "bob"; mk_user 3 "cat"; mk_user 4 "dan";
        mk_user 5 "eve"]
       [Message.mk 10 "first" 100 1; Message.mk 11 "second" 200 2;
        Message.mk 12 "third" 300 5; Message.mk 13 "fourth" 400 4]
       [Follows.mk 4 1; Follows.mk 4 2; Follows.mk 4 3;
        Follows.mk 2 1; Follows.mk 2 3;
        Follows.mk 3 1; Follows.mk 3 2;
        Follows.mk 5 1]
       [Likes.mk 1 11; Likes.mk 5 13; Likes.mk 2 12].

(** A toy instance of the external interface, for running the model. *)
Definition toy_externals : Externals :=
  {| generate_password_hash := fun salt pw => ("hash-of-" ++ pw)%string;
     check_password_hash := fun h pw => (h =? "hash-of-" ++ pw)%string;
     strip := fun s => s;
     len := String.length;
     Email := fun _ => true;
     URL := fun _ => true |}.

(** A submitted field. *)
Definition submitted (s : string) : Field := mkField [s] (Some s).

(** A profile form as user 2 could post it: the image URL and the bio are
    left blank. *)
Definition demo_form : EditProfileForm :=
  mkEditProfileForm (submitted "bobby") (submitted "bobby@example.com")
                    (submitted "") (submitted "/static/images/h.png")
                    (submitted "Paris") (submitted "") (submitted "bob").

(* ================================================================== *)
(** ** The remaining views and forms (app.py, forms.py) *)

(** [Length(min=n)]. *)
Definition Length_min `{Externals} (n : nat) (f : Field) : bool :=
  match data f with
  | Some s => if (s =? "")%string then (n <=? 0)%nat else (n <=? len s)%nat
  | None => (n <=? 0)%nat
  end.

(** [UserAddForm], bound to the request. *)
Record UserAddForm := mkUserAddForm {
  a_username : Field;
  a_email : Field;
  a_password : Field;
  a_image_url : Field
}.

(** [LoginForm], bound to the request. *)
Record LoginForm := mkLoginForm {
  l_username : Field;
  l_password : Field
}.

Definition UserAddForm_validate `{Externals} (form : UserAddForm) : bool :=
  DataRequired (a_username form)
  && (DataRequired (a_email form) && Email_ok (a_email form))
  && Length_min 6 (a_password form)
  && (Optional_stops (a_image_url form) || url_or_root_path (a_image_url form)).

Definition LoginForm_validate `{Externals} (form : LoginForm) : bool :=
  DataRequired (l_username form) && Length_min 6 (l_password form).

(** [form.validate_on_submit()] for a form whose [validate()] gives
    [valid]. *)
Definition submitted_and (req : Request) (valid : bool) : bool :=
  match method req with
  | POST => csrf_ok req && valid
  | GET => false
  end.

(** What the remaining views answer. *)
Inductive page :=
| page_of (r : response)          (* one of the responses above *)
| render_users_signup (form : UserAddForm)
| render_users_login (form : LoginForm)
| render_users_following (user : User.t)
| render_users_followers (user : User.t)
| render_users_likes (user : User.t) (msgs : list Message.t)
                     (liked_ids : list Z)
| redirect_login.                 (* redirect("/login") *)

Record result := mkResult {
  res_page : page;
  res_flashes : list (string * string);
  res_db : DB;
  res_session : session
}.

Definition result_of (o : outcome) : result :=
  mkResult (page_of (out_response o)) (out_flashes o) (out_db o)
           (out_session o).

(** [do_login]. *)
Definition do_login (user : User.t) : session := Some (User.id user).

(** The [INSERT INTO users] of a commit; [None] is the [IntegrityError]
    of the primary key or of a unique column. *)
Definition commit_user_insert (db : DB) (u : User.t) : option DB :=
  if existsb
       (fun r => (User.id r =? User.id u)
                 || (User.username r =? User.username u)%string
                 || (User.email r =? User.email u)%string)
       (users db)
  then None
  else Some (mkDB (users db ++ [u]) (messages db) (follows db) (likes db)).

(** [signup]; [next_id] is the id the sequence of [users.id] hands out,
    [salt] the salt bcrypt draws. *)
Definition signup `{Externals} (db : DB) (sess : session) (req : Request)
    (form : UserAddForm) (next_id : Z) (salt : string) : result :=
  if submitted_and req (UserAddForm_validate form) then
    let user :=
      User_signup next_id salt
                  (data_str (a_username form))
                  (data_str (a_email form))
                  (data_str (a_password form))
                  (py_or (data (a_image_url form))
                         (Some "/static/images/default-pic.png")) in
    match commit_user_insert db user with
    | None =>
        mkResult (render_users_signup form)
                 [("Username or email already taken", "danger")] db sess
    | Some db' => mkResult (page_of (redirect to_root)) [] db' (do_login user)
    end
  else mkResult (render_users_signup form) [] db sess.

(** The row [signup] hands to the commit. *)
Definition signup_row `{Externals} (form : UserAddForm) (next_id : Z)
    (salt : string) : User.t :=
  User_signup next_id salt
              (data_str (a_username form))
              (data_str (a_email form))
              (data_str (a_password form))
              (py_or (data (a_image_url form))
                     (Some "/static/images/default-pic.png")).

(** [login]. *)
Definition login `{Externals} (db : DB) (sess : session) (req : Request)
    (form : LoginForm) : result :=
  if submitted_and req (LoginForm_validate form) then
    match User_authenticate db (data_str (l_username form))
                            (data_str (l_password form)) with
    | Some user =>
        mkResult (page_of (redirect to_root))
                 [(("Hello, " ++ User.username user ++ "!")%string, "success")]
                 db (do_login user)
    | None =>
        mkResult (render_users_login form)
                 [("Invalid credentials.", "danger")] db sess
    end
  else mkResult (render_users_login form) [] db sess.

(** [logout]. *)
Definition logout (db : DB) (sess : session) : result :=
  mkResult redirect_login [("You have been logged out.", "success")] db
           (do_logout sess).

(** [show_following]. *)
Definition show_following (db : DB) (sess : session) (user_id : Z) : result :=
  match add_user_to_g db sess with
  | None => result_of (unauthorized db sess)
  | Some _ =>
      match User_query_get db user_id with
      | None => mkResult (page_of abort_404) [] db sess
      | Some user => mkResult (render_users_following user) [] db sess
      end
  end.

(** [users_followers]. *)
Definition users_followers (db : DB) (sess : session) (user_id : Z) : result :=
  match add_user_to_g db sess with
  | None => result_of (unauthorized db sess)
  | Some _ =>
      match User_query_get db user_id with
      | None => mkResult (page_of abort_404) [] db sess
      | Some user => mkResult (render_users_followers user) [] db sess
      end
  end.

(** The query of [show_likes]: [messages] joined with [likes] on
    [Likes.message_id == Message.id], filtered by [Likes.user_id], newest
    first. *)
Definition liked_messages (db : DB) (user : User.t) : list Message.t :=
  order_by ts_desc
    (flat_map
       (fun m =>
          map (fun _ => m)
              (filter (fun l => (Likes.message_id l =? Message.id m)
                                && (Likes.user_id l =? User.id user))
                      (likes db)))
       (messages db)).

(** [show_likes]. *)
Definition show_likes (db : DB) (sess : session) (user_id : Z) : result :=
  match User_query_get db user_id with
  | None => mkResult (page_of abort_404) [] db sess
  | Some user =>
      mkResult (render_users_likes user (liked_messages db user)
                                   (liked_ids_of db (add_user_to_g db sess)))
               [] db sess
  end.

(* ------------------------------------------------------------------ *)
(** *** Start-up: the database URI *)

(** [s[n:]]. *)
Fixpoint str_drop (n : nat) (s : string) : string :=
  match n, s with
  | O, _ => s
  | S n', String _ t => str_drop n' t
  | S _, EmptyString => EmptyString
  end.

(** [s.replace(old, new, 1)]: the leftmost occurrence is replaced. *)
Fixpoint str_replace_1 (old new s : string) : string :=
  if String.prefix old s
  then (new ++ str_drop (String.length old) s)%string
  else match s with
       | EmptyString => s
       | String c t => String c (str_replace_1 old new t)
       end.

(** [app.config['SQLALCHEMY_DATABASE_URI']] from the value of
    [DATABASE_URL] in the environment, if set. *)
Definition database_uri (env : option string) : string :=
  let uri := match env with Some s => s | None => "postgresql:///warbler" end in
  if String.prefix "postgres://" uri
  then str_replace_1 "postgres://" "postgresql://" uri
  else uri.

(* ------------------------------------------------------------------ *)
(** *** Response headers ([add_header]) *)

(** [c.lower()] on the ASCII letters that header names are made of. *)
Definition lower_char (c : Ascii.ascii) : Ascii.ascii :=
  let n := Ascii.nat_of_ascii c in
  if ((65 <=? n) && (n <=? 90))%nat then Ascii.ascii_of_nat (n + 32) else c.

Fixpoint lower (s : string) : string :=
  match s with
  | EmptyString => EmptyString
  | String c t => String (lower_char c) (lower t)
  end.

(** Header names are compared without regard to case. *)
Definition same_header (a b : string) : bool := (lower a =? lower b)%string.

(** [headers[key]], absent keys give [None]: the first entry of the name. *)
Definition headers_get (h : list (string * string)) (key : string)
  : option string :=
  match find (fun e => same_header (fst e) key) h with
  | Some e => Some (snd e)
  | None => None
  end.

(** [headers[key] = value]: the first entry of the name is replaced and
    the later ones are dropped; without one, the entry is appended. *)
Fixpoint headers_set (h : list (string * string)) (key value : string)
  : list (string * string) :=
  match h with
  | [] => [(key, value)]
  | e :: t =>
      if same_header (fst e) key
      then (key, value) :: filter (fun e' => negb (same_header (fst e') key)) t
      else e :: headers_set t key value
  end.

(** [add_header]: the four assignments, in the order of the source. *)
Definition add_header (h : list (string * string)) : list (string * string) :=
  let h := headers_set h "Cache-Control" "no-cache, no-store, must-revalidate" in
  let h := headers_set h "Pragma" "no-cache" in
  let h := headers_set h "Expires" "0" in
  headers_set h "Cache-Control" "public, max-age=0".

(** Forms used by the examples. *)
Definition demo_signup_form : UserAddForm :=
  mkUserAddForm (submitted "fay") (submitted "fay@example.com")
                (submitted "secret") (submitted "").

Definition demo_login_form : LoginForm :=
  mkLoginForm (submitted "fay") (submitted "secret").

(* ================================================================== *)
(** * Properties *)

(** ** ORDER BY and LIMIT *)

Section OrderBy.
Context {A : Type} (leb : A -> A -> bool).

Let R (a b : A) : Prop := leb a b = true.

Hypothesis leb_total : forall a b, leb a b = true \/ leb b a = true.
Hypothesis leb_trans :
  forall a b c, leb a b = true -> leb b c = true -> leb a c = true.

Lemma insert_by_perm (x : A) (l : list A) :
  Permutation (insert_by leb x l) (x :: l).
Proof.
  induction l as [|y t IH]; simpl.
  - apply Permutation_refl.
  - destruct (leb x y).
    + apply Permutation_refl.
    + eapply perm_trans; [apply perm_skip, IH | apply perm_swap].
Qed.

Lemma order_by_perm (l : list A) : Permutation (order_by leb l) l.
Proof.
  induction l as [|x t IH]; simpl.
  - constructor.
  - eapply perm_trans; [apply insert_by_perm | apply perm_skip, IH].
Qed.

Lemma insert_by_sorted (x : A) (l : list A) :
  StronglySorted R l -> StronglySorted R (insert_by leb x l).
Proof.
  induction 1 as [|y t Hs IH Hall]; simpl.
  - repeat constructor.
  - destruct (leb x y) eqn:E.
    + constructor; [constructor; assumption|].
      constructor; [exact E|].
      rewrite Forall_forall in *. intros z Hz.
      eapply leb_trans; [exact E | apply Hall, Hz].
    + constructor; [exact IH|].
      rewrite Forall_forall in *. intros z Hz.
      apply (Permutation_in _ (insert_by_perm x t)) in Hz.
      destruct Hz as [<-|Hz]; [|auto].
      destruct (leb_total x y) as [H|H]; [congruence | exact H].
Qed.

Lemma order_by_sorted (l : list A) : StronglySorted R (order_by leb l).
Proof.
  induction l as [|x t IH]; simpl.
  - constructor.
  - apply insert_by_sorted, IH.
Qed.

Lemma limit_order_by_top (n : nat) (l : list A) :
  top_of R n l (limit n (order_by leb l)).
Proof.
  unfold top_of, limit. split.
  - exists (skipn n (order_by leb l)).
    rewrite firstn_skipn. split; [apply order_by_perm | apply order_by_sorted].
  - rewrite length_firstn.
    rewrite (Permutation_length (order_by_perm l)). reflexivity.
Qed.
End OrderBy.

Lemma top_of_all {A} (R : A -> A -> Prop) (n : nat) (pool top : list A) :
  top_of R n pool top -> (List.length pool <= n)%nat -> Permutation top pool.
Proof.
  intros [[rest [Hp _]] Hlen] Hle.
  assert (Hr : rest = []).
  { apply Permutation_length in Hp. rewrite length_app in Hp.
    destruct rest; [reflexivity | simpl in Hp; lia]. }
  subst rest. rewrite app_nil_r in Hp. exact Hp.
Qed.

Lemma top_of_sorted {A} (R : A -> A -> Prop) (n : nat) (pool top : list A) :
  top_of R n pool top -> StronglySorted R top.
Proof.
  intros [[rest [_ Hs]] _]. revert Hs.
  induction top as [|x t IH]; simpl; intros Hs.
  - constructor.
  - inversion Hs as [|? ? Hs' Hall]; subst. constructor.
    + apply IH, Hs'.
    + rewrite Forall_forall in *. intros z Hz. apply Hall, in_or_app. now left.
Qed.

Lemma top_of_incl {A} (R : A -> A -> Prop) (n : nat) (pool top : list A) :
  top_of R n pool top -> forall x, In x top -> In x pool.
Proof.
  intros [[rest [Hp _]] _] x Hx.
  apply (Permutation_in _ Hp), in_or_app. now left.
Qed.

(** A row of the pool that did not make it into the top is ranked after
    every row of the top. *)
Lemma top_of_best {A} (R : A -> A -> Prop) (n : nat) (pool top : list A) :
  top_of R n pool top ->
  forall x y, In x top -> In y pool -> ~ In y top -> R x y.
Proof.
  intros [[rest [Hp Hs]] _] x y Hx Hy Hny.
  apply (Permutation_in _ (Permutation_sym Hp)) in Hy.
  apply in_app_or in Hy. destruct Hy as [Hy|Hy]; [contradiction|].
  clear Hp Hny. induction top as [|z t IH]; [contradiction|].
  simpl in Hs. inversion Hs as [|? ? Hs' Hall]; subst.
  destruct Hx as [<-|Hx].
  - rewrite Forall_forall in Hall. apply Hall, in_or_app. now right.
  - apply IH; assumption.
Qed.

Lemma StronglySorted_impl {A} (R R' : A -> A -> Prop) (l : list A) :
  (forall a b, R a b -> R' a b) -> StronglySorted R l -> StronglySorted R' l.
Proof.
  intros HR. induction 1 as [|x t Hs IH Hall]; constructor.
  - exact IH.
  - rewrite Forall_forall in *. intros z Hz. apply HR, Hall, Hz.
Qed.

Lemma top_of_impl {A} (R R' : A -> A -> Prop) (n : nat) (pool top : list A) :
  (forall a b, R a b -> R' a b) -> top_of R n pool top -> top_of R' n pool top.
Proof.
  intros HR [[rest [Hp Hs]] Hlen]. split; [|exact Hlen].
  exists rest. split; [exact Hp | exact (StronglySorted_impl R R' _ HR Hs)].
Qed.

(** ** The logged-in user *)

Lemma add_user_to_g_Some (db : DB) (sess : session) (U : User.t) :
  add_user_to_g db sess = Some U ->
  sess = Some (User.id U) /\ In U (users db)
  /\ User_query_get db (User.id U) = Some U.
Proof.
  unfold add_user_to_g, User_query_get. destruct sess as [i|]; [|discriminate].
  intros Hf. destruct (find_some _ _ Hf) as [Hin Heq].
  apply Z.eqb_eq in Heq. subst i. auto.
Qed.

(** ** Follow relationships *)

Lemma in_following (db : DB) (u x : User.t) :
  In x (following db u) <->
  In x (users db)
  /\ In (Follows.mk (User.id x) (User.id u)) (follows db).
Proof.
  unfold following. rewrite in_flat_map. split.
  - intros [f [Hf Hx]].
    destruct (Z.eqb_spec (Follows.user_following_id f) (User.id u)) as [E|E];
      [|contradiction].
    apply filter_In in Hx. destruct Hx as [Hx E2]. apply Z.eqb_eq in E2.
    split; [exact Hx|]. destruct f as [a b]; simpl in *. subst. exact Hf.
  - intros [Hx Hf]. exists (Follows.mk (User.id x) (User.id u)).
    split; [exact Hf|]. simpl. rewrite Z.eqb_refl.
    apply filter_In. split; [exact Hx | apply Z.eqb_refl].
Qed.

Lemma is_following_true (db : DB) (u c : User.t) :
  is_following db u c = true <->
  exists x, In x (users db) /\ User.id x = User.id c
            /\ In (Follows.mk (User.id c) (User.id u)) (follows db).
Proof.
  unfold is_following. rewrite existsb_exists. split.
  - intros [x [Hx E]]. apply Z.eqb_eq in E. apply in_following in Hx.
    exists x. rewrite <- E. tauto.
  - intros [x [Hx [E Hf]]]. exists x. split; [|now apply Z.eqb_eq].
    apply in_following. rewrite E. tauto.
Qed.

Lemma followers_any_id_true (db : DB) (c : User.t) (i : Z) :
  followers_any_id db c i = true <->
  In (Follows.mk (User.id c) i) (follows db) /\ In i (map User.id (users db)).
Proof.
  unfold followers_any_id. rewrite existsb_exists. split.
  - intros [f [Hf E]]. apply andb_true_iff in E. destruct E as [E1 E2].
    apply Z.eqb_eq in E1. apply existsb_exists in E2.
    destruct E2 as [u1 [Hu1 E2]]. apply andb_true_iff in E2.
    destruct E2 as [E2 E3]. apply Z.eqb_eq in E2, E3.
    destruct f as [a b]; simpl in *. rewrite E1, <- E3, E2. split; [exact Hf|].
    rewrite <- E2. apply in_map, Hu1.
  - intros [Hf Hi]. apply in_map_iff in Hi. destruct Hi as [u1 [E Hu1]].
    exists (Follows.mk (User.id c) i). split; [exact Hf|]. simpl.
    rewrite Z.eqb_refl. simpl. apply existsb_exists. exists u1.
    split; [exact Hu1|]. rewrite E, Z.eqb_refl. reflexivity.
Qed.

(** ** Follow suggestions *)

Lemma rank_leb_spec (db : DB) (a b : User.t) :
  rank_leb db a b = true <-> rank_before db a b.
Proof.
  unfold rank_leb, rank_before.
  rewrite orb_true_iff, andb_true_iff, Nat.ltb_lt, Nat.eqb_eq, Z.leb_le.
  reflexivity.
Qed.

Lemma rank_leb_total (db : DB) (a b : User.t) :
  rank_leb db a b = true \/ rank_leb db b a = true.
Proof. rewrite !rank_leb_spec. unfold rank_before. lia. Qed.

Lemma rank_leb_trans (db : DB) (a b c : User.t) :
  rank_leb db a b = true -> rank_leb db b c = true -> rank_leb db a c = true.
Proof. rewrite !rank_leb_spec. unfold rank_before. lia. Qed.

Lemma suggested_users_for_top (db : DB) (U : User.t) (lim : nat) :
  top_of (rank_before db) lim (filter (suggest_filter db U) (users db))
         (suggested_users_for db (Some U) lim).
Proof.
  unfold suggested_users_for.
  apply top_of_impl with (R := fun a b => rank_leb db a b = true).
  - intros a b. apply rank_leb_spec.
  - apply limit_order_by_top; [apply rank_leb_total | apply rank_leb_trans].
Qed.

Lemma suggested_users_for_In (db : DB) (U c : User.t) (lim : nat) :
  In c (suggested_users_for db (Some U) lim) ->
  In c (users db) /\ suggest_filter db U c = true.
Proof.
  intros Hc. apply (top_of_incl _ _ _ _ (suggested_users_for_top db U lim)) in Hc.
  apply filter_In in Hc. exact Hc.
Qed.

(** The filter of the query keeps exactly the users other than [U] that
    [U] does not follow. *)
Lemma suggest_filter_spec (db : DB) (U c : User.t) :
  In U (users db) -> In c (users db) ->
  suggest_filter db U c = true <->
  User.id c <> User.id U /\ is_following db U c = false.
Proof.
  intros HU Hc. unfold suggest_filter.
  rewrite andb_true_iff, !negb_true_iff, Z.eqb_neq.
  assert (H : followers_any_id db c (User.id U) = is_following db U c).
  { apply eq_true_iff_eq. rewrite followers_any_id_true, is_following_true.
    split.
    - intros [Hf _]. exists c. auto.
    - intros [x [_ [_ Hf]]]. split; [exact Hf | apply in_map, HU]. }
  rewrite H. reflexivity.
Qed.

(** C1, as the code has it: for a logged-in user [U], no row of
    [suggested_users_for(U, limit)] is [U] itself, and none is a user that
    [U] already follows (the filter asks whether [U] is among the
    candidate's followers). *)
Theorem suggested_users_for_excludes
    (db : DB) (sess : session) (U : User.t) (lim : nat) :
  add_user_to_g db sess = Some U ->
  forall c, In c (suggested_users_for db (Some U) lim) ->
    User.id c <> User.id U /\ c <> U /\ is_following db U c = false.
Proof.
  intros Hg c Hc. apply add_user_to_g_Some in Hg. destruct Hg as [_ [HU _]].
  apply suggested_users_for_In in Hc. destruct Hc as [Hin Hf].
  apply suggest_filter_spec in Hf; [|assumption|assumption].
  destruct Hf as [Hid Hfol]. repeat split; [exact Hid| |exact Hfol].
  intros ->. apply Hid. reflexivity.
Qed.

Lemma suggested_users_for_excludes_witness :
  add_user_to_g demo_db (Some 1) = Some (mk_user 1 "ann")
  /\ In (mk_user 5 "eve") (users demo_db)
  /\ ~ In (mk_user 5 "eve")
          (suggested_users_for demo_db (Some (mk_user 1 "ann")) 5).
Proof.
  split; [reflexivity|]. split; [simpl; tauto|].
  intros Hin.
  destruct (suggested_users_for_excludes demo_db (Some 1) (mk_user 1 "ann") 5
              eq_refl _ Hin) as [_ [_ Hf]].
  vm_compute in Hf. discriminate Hf.
Defined.

(** C1 as stated fails: user 1 follows user 5, user 5 does not follow
    user 1, and user 1 is suggested to user 5. *)
Lemma suggested_users_for_keeps_follower :
  add_user_to_g demo_db (Some 5) = Some (mk_user 5 "eve")
  /\ is_following demo_db (mk_user 1 "ann") (mk_user 5 "eve") = true
  /\ In (mk_user 1 "ann")
        (suggested_users_for demo_db (Some (mk_user 5 "eve")) 5).
Proof.
  split; [reflexivity|]. split; [reflexivity|].
  vm_compute. tauto.
Qed.

(** C3: without a user the result is empty; for a user [U] the result is
    the head, of length [min limit n], of the [n] rows that pass the
    filter, arranged by follower count descending and then id ascending;
    so it has at most [limit] rows, is itself so arranged, and is all of
    them when [n <= limit]. *)
Theorem suggested_users_for_ranked (db : DB) (lim : nat) :
  suggested_users_for db None lim = []
  /\ forall U : User.t,
       let cands := filter (suggest_filter db U) (users db) in
       let res := suggested_users_for db (Some U) lim in
       top_of (rank_before db) lim cands res
       /\ StronglySorted (rank_before db) res
       /\ (List.length res <= lim)%nat
       /\ (forall c d, In c res -> In d cands -> ~ In d res ->
             rank_before db c d)
       /\ ((List.length cands <= lim)%nat -> Permutation res cands).
Proof.
  split; [reflexivity|]. intros U cands res.
  pose proof (suggested_users_for_top db U lim) as Htop.
  fold cands res in Htop.
  split; [exact Htop|].
  split; [exact (top_of_sorted _ _ _ _ Htop)|].
  split; [destruct Htop as [_ Hlen]; rewrite Hlen; apply Nat.le_min_l|].
  split; [exact (top_of_best _ _ _ _ Htop)|].
  exact (top_of_all _ _ _ _ Htop).
Qed.

(** The shape of the specification's example: user 4 has the most
    followers, users 2 and 3 tie and go by id, user 1 has none. *)
Lemma suggested_users_for_ranked_witness :
  suggested_users_for demo_db (Some (mk_user 5 "eve")) 5
  = [mk_user 4 "dan"; mk_user 2 "bob"; mk_user 3 "cat"; mk_user 1 "ann"]
  /\ Permutation
       (suggested_users_for demo_db (Some (mk_user 5 "eve")) 5)
       (filter (suggest_filter demo_db (mk_user 5 "eve")) (users demo_db)).
Proof.
  split; [reflexivity|].
  destruct (suggested_users_for_ranked demo_db 5) as [_ H].
  destruct (H (mk_user 5 "eve")) as [_ [_ [_ [_ Hall]]]].
  apply Hall. vm_compute. lia.
Defined.

Example suggested_users_for_limit_2 :
  suggested_users_for demo_db (Some (mk_user 5 "eve")) 2
  = [mk_user 4 "dan"; mk_user 2 "bob"].
Proof. reflexivity. Qed.

(** ** Home feed *)

Lemma ts_desc_spec (a b : Message.t) : ts_desc a b = true <-> newer_eq a b.
Proof. unfold ts_desc, newer_eq. apply Z.leb_le. Qed.

Lemma ts_desc_total (a b : Message.t) :
  ts_desc a b = true \/ ts_desc b a = true.
Proof. rewrite !ts_desc_spec. unfold newer_eq. lia. Qed.

Lemma ts_desc_trans (a b c : Message.t) :
  ts_desc a b = true -> ts_desc b c = true -> ts_desc a c = true.
Proof. rewrite !ts_desc_spec. unfold newer_eq. lia. Qed.

Lemma newest_first_top (n : nat) (pool : list Message.t) :
  top_of newer_eq n pool (limit n (order_by ts_desc pool)).
Proof.
  apply top_of_impl with (R := fun a b => ts_desc a b = true).
  - intros a b. apply ts_desc_spec.
  - apply limit_order_by_top; [apply ts_desc_total | apply ts_desc_trans].
Qed.

Lemma top_of_length {A} (R : A -> A -> Prop) (n : nat) (pool top : list A) :
  top_of R n pool top -> (List.length top <= n)%nat.
Proof. intros [_ Hlen]. rewrite Hlen. apply Nat.le_min_l. Qed.

Lemma in_following_is_following (db : DB) (u x : User.t) :
  In x (following db u) -> In x (users db) /\ is_following db u x = true.
Proof.
  intros Hx. split; [apply in_following in Hx; tauto|].
  unfold is_following. apply existsb_exists. exists x.
  split; [exact Hx | apply Z.eqb_refl].
Qed.

(** The [IN (ids)] test of the feed query selects the messages by the user
    or by a followee. *)
Lemma feed_ids_spec (db : DB) (U : User.t) (m : Message.t) :
  existsb (Z.eqb (Message.user_id m))
          (map User.id (following db U) ++ [User.id U])
  = by_self_or_followee db U m.
Proof.
  apply eq_true_iff_eq. unfold by_self_or_followee.
  rewrite existsb_app, !orb_true_iff. simpl. rewrite orb_false_r.
  rewrite !existsb_exists. split.
  - intros [[i [Hi E]]|E]; [right | now left].
    apply Z.eqb_eq in E. apply in_map_iff in Hi. destruct Hi as [x [Ex Hx]].
    apply in_following_is_following in Hx. destruct Hx as [Hin Hf].
    exists x. split; [exact Hin|]. rewrite Hf. simpl.
    apply Z.eqb_eq. congruence.
  - intros [E|[v [Hv E]]]; [now right | left].
    apply andb_true_iff in E. destruct E as [Hf E]. apply Z.eqb_eq in E.
    unfold is_following in Hf. apply existsb_exists in Hf.
    destruct Hf as [x [Hx Ex]]. apply Z.eqb_eq in Ex.
    exists (User.id x). split; [apply in_map, Hx|].
    apply Z.eqb_eq. congruence.
Qed.

(** C2: the home feed of a logged-in user [U].  If [U] follows some other
    user, it is the head, newest first and of at most 100 rows, of the
    messages written by [U] or by a user [U] follows, and nothing is
    flashed.  If [U] follows no user, it is the head, newest first and of
    at most 50 rows, of all messages, and the notice is flashed. *)
Theorem homepage_feed (db : DB) (sess : session) (U : User.t) :
  add_user_to_g db sess = Some U ->
  ((exists V, In V (users db) /\ User.id V <> User.id U
              /\ is_following db U V = true) ->
   exists feed liked sugg,
     homepage db sess = mkOut (render_home feed liked sugg) [] db sess
     /\ top_of newer_eq 100
               (filter (by_self_or_followee db U) (messages db)) feed
     /\ StronglySorted newer_eq feed
     /\ (List.length feed <= 100)%nat
     /\ (forall m, In m feed ->
           In m (messages db) /\ by_self_or_followee db U m = true))
  /\
  ((forall V, In V (users db) -> is_following db U V = false) ->
   exists feed liked sugg,
     homepage db sess
     = mkOut (render_home feed liked sugg) [(feed_empty_notice, "info")]
             db sess
     /\ top_of newer_eq 50 (messages db) feed
     /\ StronglySorted newer_eq feed
     /\ (List.length feed <= 50)%nat).
Proof.
  intros Hg. unfold homepage. rewrite Hg. split.
  - intros [V [HV [_ Hf]]].
    destruct (following db U) as [|x t] eqn:Efol.
    { unfold is_following in Hf. rewrite Efol in Hf. discriminate Hf. }
    rewrite <- Efol. clear Efol x t.
    rewrite (filter_ext _ _ (feed_ids_spec db U)).
    pose proof (newest_first_top 100
                  (filter (by_self_or_followee db U) (messages db))) as Htop.
    eexists _, _, _. split; [reflexivity|].
    split; [exact Htop|].
    split; [exact (top_of_sorted _ _ _ _ Htop)|].
    split; [exact (top_of_length _ _ _ _ Htop)|].
    intros m Hm. apply (top_of_incl _ _ _ _ Htop) in Hm.
    apply filter_In in Hm. exact Hm.
  - intros Hnone.
    destruct (following db U) as [|x t] eqn:Efol.
    + pose proof (newest_first_top 50 (messages db)) as Htop.
      eexists _, _, _. split; [reflexivity|].
      split; [exact Htop|].
      split; [exact (top_of_sorted _ _ _ _ Htop)|].
      exact (top_of_length _ _ _ _ Htop).
    + assert (Hx : In x (following db U)) by (rewrite Efol; now left).
      apply in_following_is_following in Hx. destruct Hx as [Hin Hf].
      rewrite (Hnone x Hin) in Hf. discriminate Hf.
Qed.

Lemma homepage_feed_witness :
  out_response (homepage demo_db (Some 2))
  = render_home [Message.mk 13 "fourth" 400 4; Message.mk 11 "second" 200 2]
                [12]
                [mk_user 5 "eve"; mk_user 1 "ann"]
  /\ out_flashes (homepage demo_db (Some 2)) = []
  /\ out_response (homepage demo_db (Some 5))
     = render_home [Message.mk 13 "fourth" 400 4; Message.mk 12 "third" 300 5;
                    Message.mk 11 "second" 200 2; Message.mk 10 "first" 100 1]
                   [13]
                   [mk_user 4 "dan"; mk_user 2 "bob"; mk_user 3 "cat";
                    mk_user 1 "ann"]
  /\ out_flashes (homepage demo_db (Some 5)) = [(feed_empty_notice, "info")].
Proof.
  destruct (homepage_feed demo_db (Some 2) (mk_user 2 "bob") eq_refl)
    as [Hfollows _].
  destruct (homepage_feed demo_db (Some 5) (mk_user 5 "eve") eq_refl)
    as [_ Hnone].
  destruct Hfollows as [feed [liked [sugg [E _]]]].
  { exists (mk_user 4 "dan"). split; [simpl; tauto|].
    split; [discriminate | reflexivity]. }
  destruct Hnone as [feed' [liked' [sugg' [E' _]]]].
  { intros V HV. simpl in HV.
    repeat (destruct HV as [<-|HV]; [reflexivity|]). contradiction. }
  rewrite E, E'. simpl.
  vm_compute in E. vm_compute in E'.
  injection E as <- <- <-. injection E' as <- <- <-.
  repeat split; reflexivity.
Defined.

(** ** Likes *)

Lemma like_row_eq (uid mid : Z) (l : Likes.t) :
  like_row uid mid l = true <-> l = Likes.mk uid mid.
Proof.
  unfold like_row. rewrite andb_true_iff, !Z.eqb_eq.
  destruct l as [a b]; simpl. split.
  - intros [-> ->]. reflexivity.
  - intros E. injection E as -> ->. auto.
Qed.

Lemma find_none_filter {A} (p : A -> bool) (l : list A) :
  find p l = None -> filter p l = [] /\ filter (fun x => negb (p x)) l = l.
Proof.
  induction l as [|x t IH]; simpl; [auto|].
  destruct (p x); [discriminate|]. intros H. destruct (IH H) as [E1 E2].
  simpl. rewrite E2. auto.
Qed.

Lemma filter_negb_none {A} (p : A -> bool) (l : list A) :
  filter p (filter (fun x => negb (p x)) l) = []
  /\ find p (filter (fun x => negb (p x)) l) = None.
Proof.
  induction l as [|x t [IH1 IH2]]; simpl; [auto|].
  destruct (p x) eqn:E; simpl; [auto|]. rewrite E. auto.
Qed.

Lemma find_existsb {A} (p : A -> bool) (l : list A) :
  existsb p l = match find p l with Some _ => true | None => false end.
Proof.
  induction l as [|x t IH]; simpl; [reflexivity|].
  destruct (p x); [reflexivity | exact IH].
Qed.

(** Under the primary key there is at most one row per pair. *)
Lemma like_rows_le_1 (db : DB) (uid mid : Z) :
  NoDup (likes db) -> (like_rows db uid mid <= 1)%nat.
Proof.
  unfold like_rows. generalize (likes db) as l.
  induction l as [|x t IH]; simpl; intros Hnd; [lia|].
  inversion Hnd as [|? ? Hnotin Hnd']; subst.
  destruct (like_row uid mid x) eqn:E; [|auto].
  apply like_row_eq in E. subst x. simpl.
  assert (Ht : filter (like_row uid mid) t = []).
  { destruct (filter (like_row uid mid) t) as [|y r] eqn:Ef; [reflexivity|].
    assert (Hy : In y (filter (like_row uid mid) t)) by (rewrite Ef; now left).
    apply filter_In in Hy. destruct Hy as [Hy Ey].
    apply like_row_eq in Ey. subst y. contradiction. }
  rewrite Ht. simpl. lia.
Qed.

(** What one toggle by a non-author does to the tables. *)
Lemma toggle_like_non_author
    (db : DB) (sess : session) (req : Request) (U : User.t) (M : Message.t) :
  add_user_to_g db sess = Some U ->
  Message_query_get db (Message.id M) = Some M ->
  Message.user_id M <> User.id U ->
  let out := toggle_like db sess req (Message.id M) in
  let row := like_row (User.id U) (Message.id M) in
  out_response out = redirect (referrer_or req to_root)
  /\ out_session out = sess
  /\ users (out_db out) = users db
  /\ messages (out_db out) = messages db
  /\ follows (out_db out) = follows db
  /\ likes (out_db out)
     = (if liked db (User.id U) (Message.id M)
        then filter (fun l => negb (row l)) (likes db)
        else likes db ++ [Likes.mk (User.id U) (Message.id M)]).
Proof.
  intros Hg Hm Hna. unfold toggle_like. rewrite Hg, Hm.
  apply Z.eqb_neq in Hna. rewrite Hna. unfold liked.
  rewrite find_existsb.
  destruct (find (like_row (User.id U) (Message.id M)) (likes db));
    simpl; repeat split; reflexivity.
Qed.

Section ToggleRows.
Context {A : Type} (p : A -> bool) (x : A).

Hypothesis p_spec : forall y, p y = true <-> y = x.

Let negp (y : A) : bool := negb (p y).

Lemma p_x : p x = true.
Proof. apply p_spec. reflexivity. Qed.

Lemma existsb_p_In (l : list A) : existsb p l = true <-> In x l.
Proof.
  rewrite existsb_exists. split.
  - intros [y [Hy E]]. apply p_spec in E. now subst y.
  - intros Hx. exists x. split; [exact Hx | exact p_x].
Qed.

Lemma In_filter_negp (l : list A) (y : A) :
  In y (filter negp l) <-> In y l /\ y <> x.
Proof.
  rewrite filter_In. unfold negp. rewrite negb_true_iff.
  split; intros [H1 H2]; split; try exact H1.
  - intros E. apply p_spec in E. congruence.
  - destruct (p y) eqn:E; [|reflexivity]. apply p_spec in E. contradiction.
Qed.

Lemma NoDup_snoc (l : list A) : NoDup l -> ~ In x l -> NoDup (l ++ [x]).
Proof.
  induction 1 as [|y t Hy Hnd IH]; simpl; intros Hx.
  - constructor; [intros [] | constructor].
  - constructor.
    + rewrite in_app_iff. simpl. intros [H|[H|[]]]; [contradiction|].
      apply Hx. left. congruence.
    + apply IH. intros H. apply Hx. now right.
Qed.

Lemma filter_p_snoc (l : list A) :
  filter p (l ++ [x]) = filter p l ++ [x].
Proof. rewrite filter_app. simpl. rewrite p_x. reflexivity. Qed.

Lemma filter_negp_snoc (l : list A) :
  filter negp (l ++ [x]) = filter negp l.
Proof.
  rewrite filter_app. simpl. unfold negp at 2. rewrite p_x. simpl.
  apply app_nil_r.
Qed.

(** Two toggles in a row: the row is flipped, then flipped back. *)
Lemma toggle_rows_twice (l l1 l2 : list A) :
  NoDup l ->
  l1 = (if existsb p l then filter negp l else l ++ [x]) ->
  l2 = (if existsb p l1 then filter negp l1 else l1 ++ [x]) ->
  existsb p l1 = negb (existsb p l)
  /\ existsb p l2 = existsb p l
  /\ Permutation l2 l
  /\ NoDup l1 /\ NoDup l2.
Proof.
  intros Hnd E1 E2. destruct (existsb p l) eqn:El.
  - (* liked: the row is deleted, then inserted again *)
    assert (H1 : existsb p l1 = false).
    { subst l1. rewrite find_existsb.
      destruct (filter_negb_none p l) as [_ Hf]. fold negp in Hf.
      rewrite Hf. reflexivity. }
    rewrite H1 in E2. simpl.
    assert (Hnd1 : NoDup l1) by (subst l1; apply NoDup_filter, Hnd).
    assert (Hx1 : ~ In x l1).
    { intros H. apply existsb_p_In in H. congruence. }
    assert (Hnd2 : NoDup l2) by (subst l2; apply NoDup_snoc; assumption).
    split; [exact H1|]. split.
    { apply existsb_p_In. subst l2. apply in_or_app. right. now left. }
    split; [|split; assumption].
    apply NoDup_Permutation; [assumption|assumption|].
    intros y. subst l2 l1. rewrite in_app_iff, In_filter_negp. simpl.
    apply existsb_p_In in El. split.
    + intros [[H _]|[<-|[]]]; assumption.
    + intros H. destruct (existsb p [y]) eqn:Ey.
      * simpl in Ey. rewrite orb_false_r in Ey. apply p_spec in Ey. auto.
      * left. split; [exact H|]. intros ->. simpl in Ey.
        rewrite p_x in Ey. discriminate Ey.
  - (* not liked: the row is inserted, then deleted again *)
    assert (Hx : ~ In x l).
    { intros H. apply existsb_p_In in H. congruence. }
    assert (H1 : existsb p l1 = true).
    { apply existsb_p_In. subst l1. apply in_or_app. right. now left. }
    rewrite H1 in E2. simpl.
    assert (E : l2 = l).
    { subst l2 l1. rewrite filter_negp_snoc.
      rewrite find_existsb in El.
      destruct (find p l) eqn:Ef; [discriminate|].
      apply find_none_filter in Ef. apply Ef. }
    rewrite E.
    split; [exact H1|]. split; [exact El|].
    split; [apply Permutation_refl|].
    split; [subst l1; apply NoDup_snoc; assumption | exact Hnd].
Qed.
End ToggleRows.

Lemma add_user_to_g_users (db db' : DB) (sess : session) :
  users db' = users db -> add_user_to_g db' sess = add_user_to_g db sess.
Proof.
  intros E. unfold add_user_to_g, User_query_get. rewrite E. reflexivity.
Qed.

Lemma Message_query_get_messages (db db' : DB) (i : Z) :
  messages db' = messages db ->
  Message_query_get db' i = Message_query_get db i.
Proof. intros E. unfold Message_query_get. rewrite E. reflexivity. Qed.

(** C4: for a logged-in user [U] who did not write the existing message
    [M], over a [likes] table that satisfies its primary key: the first
    toggle flips whether [U] likes [M], the second restores it, and after
    the two the table holds the rows it held before while the other
    tables never change; before, between and after the toggles there is at
    most one row for the pair, and no row is duplicated. *)
Theorem toggle_like_twice
    (db : DB) (sess : session) (req1 req2 : Request)
    (U : User.t) (M : Message.t) :
  NoDup (likes db) ->
  add_user_to_g db sess = Some U ->
  Message_query_get db (Message.id M) = Some M ->
  Message.user_id M <> User.id U ->
  let o1 := toggle_like db sess req1 (Message.id M) in
  let o2 := toggle_like (out_db o1) (out_session o1) req2 (Message.id M) in
  liked (out_db o1) (User.id U) (Message.id M)
  = negb (liked db (User.id U) (Message.id M))
  /\ liked (out_db o2) (User.id U) (Message.id M)
     = liked db (User.id U) (Message.id M)
  /\ Permutation (likes (out_db o2)) (likes db)
  /\ (users (out_db o2) = users db /\ messages (out_db o2) = messages db
      /\ follows (out_db o2) = follows db)
  /\ ((like_rows db (User.id U) (Message.id M) <= 1)%nat
      /\ (like_rows (out_db o1) (User.id U) (Message.id M) <= 1)%nat
      /\ (like_rows (out_db o2) (User.id U) (Message.id M) <= 1)%nat)
  /\ (NoDup (likes (out_db o1)) /\ NoDup (likes (out_db o2))).
Proof.
  intros Hnd Hg Hm Hna o1 o2.
  destruct (toggle_like_non_author db sess req1 U M Hg Hm Hna)
    as [_ [Hs1 [Hu1 [Hm1 [Hf1 Hl1]]]]].
  fold o1 in Hs1, Hu1, Hm1, Hf1, Hl1.
  assert (Hg1 : add_user_to_g (out_db o1) (out_session o1) = Some U).
  { rewrite Hs1, (add_user_to_g_users db (out_db o1) sess Hu1). exact Hg. }
  assert (Hmq1 : Message_query_get (out_db o1) (Message.id M) = Some M).
  { rewrite (Message_query_get_messages db (out_db o1) _ Hm1). exact Hm. }
  destruct (toggle_like_non_author (out_db o1) (out_session o1) req2 U M
              Hg1 Hmq1 Hna) as [_ [_ [Hu2 [Hm2 [Hf2 Hl2]]]]].
  fold o2 in Hu2, Hm2, Hf2, Hl2.
  destruct (toggle_rows_twice (like_row (User.id U) (Message.id M))
              (Likes.mk (User.id U) (Message.id M))
              (like_row_eq (User.id U) (Message.id M))
              (likes db) (likes (out_db o1)) (likes (out_db o2))
              Hnd Hl1 Hl2) as [T1 [T2 [T3 [T4 T5]]]].
  split; [exact T1|]. split; [exact T2|]. split; [exact T3|].
  split; [repeat split; congruence|].
  split; [|split; assumption].
  repeat split; apply like_rows_le_1; assumption.
Qed.

Lemma demo_likes_NoDup : NoDup (likes demo_db).
Proof.
  simpl. repeat constructor; simpl; intuition discriminate.
Qed.

Lemma toggle_like_twice_witness :
  let req := mkRequest POST true None in
  let o1 := toggle_like demo_db (Some 2) req 12 in
  let o2 := toggle_like (out_db o1) (out_session o1) req 12 in
  liked demo_db 2 12 = true
  /\ liked (out_db o1) 2 12 = false
  /\ liked (out_db o2) 2 12 = true
  /\ Permutation (likes (out_db o2)) (likes demo_db).
Proof.
  intros req o1 o2.
  assert (Hna : Message.user_id (Message.mk 12 "third" 300 5)
                <> User.id (mk_user 2 "bob")) by (simpl; lia).
  destruct (toggle_like_twice demo_db (Some 2) req req (mk_user 2 "bob")
              (Message.mk 12 "third" 300 5)
              demo_likes_NoDup eq_refl eq_refl Hna)
    as [H1 [H2 [H3 _]]].
  split; [reflexivity|]. split; [exact H1|]. split; [exact H2 | exact H3].
Defined.

(** C5: when the logged-in user [U] wrote the message, [toggle_like] stops
    at the self-like guard: it flashes the warning and redirects, and the
    database and the session are the ones it was given. *)
Theorem toggle_like_own_message
    (db : DB) (sess : session) (req : Request) (U : User.t) (M : Message.t) :
  add_user_to_g db sess = Some U ->
  Message_query_get db (Message.id M) = Some M ->
  Message.user_id M = User.id U ->
  toggle_like db sess req (Message.id M)
  = mkOut (redirect (referrer_or req (to_user (User.id U))))
          [("You cannot like your own message.", "warning")] db sess.
Proof.
  intros Hg Hm Hown. unfold toggle_like. rewrite Hg, Hm, Hown, Z.eqb_refl.
  reflexivity.
Qed.

Lemma toggle_like_own_message_witness :
  toggle_like demo_db (Some 5) (mkRequest POST true None) 12
  = mkOut (redirect (to_user 5))
          [("You cannot like your own message.", "warning")]
          demo_db (Some 5).
Proof.
  exact (toggle_like_own_message demo_db (Some 5) (mkRequest POST true None)
           (mk_user 5 "eve") (Message.mk 12 "third" 300 5)
           eq_refl eq_refl eq_refl).
Defined.

(** ** Not-found handling and [stop_following] *)

Lemma users_show_404 (db : DB) (sess : session) (i : Z) :
  User_query_get db i = None ->
  users_show db sess i = mkOut abort_404 [] db sess.
Proof. intros E. unfold users_show. rewrite E. reflexivity. Qed.

Lemma add_follow_404 (db : DB) (sess : session) (U : User.t) (i : Z) :
  add_user_to_g db sess = Some U ->
  User_query_get db i = None ->
  add_follow db sess i = mkOut abort_404 [] db sess.
Proof. intros Hg E. unfold add_follow. rewrite Hg, E. reflexivity. Qed.

Lemma toggle_like_404
    (db : DB) (sess : session) (req : Request) (U : User.t) (i : Z) :
  add_user_to_g db sess = Some U ->
  Message_query_get db i = None ->
  toggle_like db sess req i = mkOut abort_404 [] db sess.
Proof. intros Hg E. unfold toggle_like. rewrite Hg, E. reflexivity. Qed.

Lemma list_remove_absent {A} (eqb : A -> A -> bool) (x : A) (l : list A) :
  (forall y, In y l -> eqb y x = false) -> list_remove eqb x l = None.
Proof.
  induction l as [|y t IH]; simpl; intros H; [reflexivity|].
  rewrite (H y (or_introl eq_refl)), IH; [reflexivity|].
  intros z Hz. apply H. now right.
Qed.

Lemma following_subset (db : DB) (u v : User.t) :
  In v (following db u) -> User_query_get db (User.id v) <> None.
Proof.
  intros Hv. apply in_following in Hv. destruct Hv as [Hin _].
  unfold User_query_get. intros Hnone.
  apply (find_none _ _ Hnone) in Hin. simpl in Hin.
  rewrite Z.eqb_refl in Hin. discriminate Hin.
Qed.

(** C9: for a logged-in user [U] and a target id [T] that names no user,
    or names a user that is not in [U.following], [stop_following] ends in
    the [ValueError] of [list.remove]: nothing catches it, nothing is
    committed, and the database (so every [follows] row) is as before. *)
Theorem stop_following_not_followed
    (db : DB) (sess : session) (U : User.t) (T : Z) :
  add_user_to_g db sess = Some U ->
  (User_query_get db T = None
   \/ forall v, In v (following db U) -> User.id v <> T) ->
  stop_following db sess T = mkOut (unhandled ValueError) [] db sess
  /\ follows (out_db (stop_following db sess T)) = follows db.
Proof.
  intros Hg HT.
  assert (E : stop_following db sess T = mkOut (unhandled ValueError) [] db sess).
  { unfold stop_following. rewrite Hg.
    rewrite list_remove_absent; [reflexivity|].
    intros y Hy. apply in_map_iff in Hy. destruct Hy as [v [<- Hv]].
    destruct (User_query_get db T) as [fu|] eqn:Eq; [|reflexivity].
    destruct HT as [HT|HT]; [discriminate HT|].
    unfold User_query_get in Eq. apply find_some in Eq.
    destruct Eq as [_ Eq]. apply Z.eqb_eq in Eq.
    simpl. unfold same_user. apply Z.eqb_neq. rewrite Eq. apply HT, Hv. }
  split; [exact E | rewrite E; reflexivity].
Qed.

Lemma stop_following_not_followed_witness :
  stop_following demo_db (Some 2) 5
  = mkOut (unhandled ValueError) [] demo_db (Some 2)
  /\ stop_following demo_db (Some 2) 999
     = mkOut (unhandled ValueError) [] demo_db (Some 2).
Proof.
  split.
  - apply (stop_following_not_followed demo_db (Some 2) (mk_user 2 "bob") 5
             eq_refl).
    right. intros v Hv. vm_compute in Hv.
    destruct Hv as [<-|[<-|[]]]; simpl; lia.
  - apply (stop_following_not_followed demo_db (Some 2) (mk_user 2 "bob") 999
             eq_refl).
    left. reflexivity.
Defined.

(** Where the edge exists, [stop_following] removes it and nothing else. *)
Example stop_following_followed :
  out_response (stop_following demo_db (Some 2) 4)
  = redirect (to_user_following 2)
  /\ follows (out_db (stop_following demo_db (Some 2) 4))
     = [Follows.mk 4 1; Follows.mk 4 3; Follows.mk 2 1; Follows.mk 2 3;
        Follows.mk 3 1; Follows.mk 3 2; Follows.mk 5 1].
Proof. split; reflexivity. Qed.

(** C8 at a missing user id, logged in as user 5: the profile view, the
    follow and the like toggle answer 404, [stop_following] does not: it
    ends in the unhandled [ValueError]. *)
Theorem stop_following_missing_user_not_404 :
  User_query_get demo_db 999 = None
  /\ Message_query_get demo_db 999 = None
  /\ out_response (users_show demo_db (Some 5) 999) = abort_404
  /\ out_response (add_follow demo_db (Some 5) 999) = abort_404
  /\ out_response (toggle_like demo_db (Some 5) (mkRequest POST true None) 999)
     = abort_404
  /\ out_response (stop_following demo_db (Some 5) 999) = unhandled ValueError
  /\ out_response (stop_following demo_db (Some 5) 999) <> abort_404.
Proof.
  repeat split; try reflexivity. discriminate.
Qed.

(** ** Deleting a user *)

(** A key column stays duplicate-free when rows are deleted. *)
Lemma NoDup_map_filter {Row Key : Type} (key : Row -> Key)
    (keep : Row -> bool) (rows : list Row) (Hkey : NoDup (map key rows)) :
  NoDup (map key (filter keep rows)).
Proof.
  induction rows as [|x t IH]; simpl in *; [constructor|].
  inversion Hkey as [|? ? Hx Hkey']; subst.
  destruct (keep x); simpl; [|auto]. constructor; [|auto].
  intros Hin. apply Hx. apply in_map_iff in Hin.
  destruct Hin as [y [E Hy]]. apply filter_In in Hy.
  rewrite <- E. apply in_map, Hy.
Qed.

Lemma existsb_false_iff {A} (f : A -> bool) (l : list A) :
  existsb f l = false <-> forall x, In x l -> f x = false.
Proof.
  induction l as [|y t IH]; simpl.
  - split; [intros _ x [] | reflexivity].
  - rewrite orb_false_iff, IH. split.
    + intros [Hy Ht] x [<-|Hx]; auto.
    + intros H. split; [apply H; now left | intros x Hx; apply H; now right].
Qed.

Lemma in_users_after_delete (db : DB) (u r : User.t) :
  In r (users (delete_user_cascade db u)) <->
  In r (users db) /\ User.id r <> User.id u.
Proof. simpl. rewrite filter_In, negb_true_iff, Z.eqb_neq. reflexivity. Qed.

Lemma in_messages_after_delete (db : DB) (u : User.t) (m : Message.t) :
  In m (messages (delete_user_cascade db u)) <->
  In m (messages db) /\ Message.user_id m <> User.id u.
Proof. simpl. rewrite filter_In, negb_true_iff, Z.eqb_neq. reflexivity. Qed.

Lemma in_follows_after_delete (db : DB) (u : User.t) (f : Follows.t) :
  In f (follows (delete_user_cascade db u)) <->
  In f (follows db)
  /\ Follows.user_being_followed_id f <> User.id u
  /\ Follows.user_following_id f <> User.id u.
Proof.
  simpl. rewrite filter_In, andb_true_iff, !negb_true_iff, !Z.eqb_neq.
  reflexivity.
Qed.

Lemma in_likes_after_delete (db : DB) (u : User.t) (l : Likes.t) :
  In l (likes (delete_user_cascade db u)) <->
  In l (likes db)
  /\ Likes.user_id l <> User.id u
  /\ forall m, In m (messages db) -> Message.id m = Likes.message_id l ->
       Message.user_id m <> User.id u.
Proof.
  simpl. rewrite filter_In, andb_true_iff, !negb_true_iff, Z.eqb_neq.
  rewrite existsb_false_iff.
  split; intros [Hin [Hu Hm]]; (split; [exact Hin|]); (split; [exact Hu|]).
  - intros m Hmin Eid Eown.
    assert (Hg : In m (filter (fun m0 => Message.user_id m0 =? User.id u)
                              (messages db))).
    { apply filter_In. split; [exact Hmin | now apply Z.eqb_eq]. }
    apply Hm in Hg. apply Z.eqb_neq in Hg. congruence.
  - intros m Hg. apply filter_In in Hg. destruct Hg as [Hmin Eown].
    apply Z.eqb_eq in Eown. apply Z.eqb_neq. intros Eid.
    exact (Hm m Hmin (eq_sym Eid) Eown).
Qed.

Lemma schema_ok_after_delete (db : DB) (u : User.t) :
  schema_ok db -> schema_ok (delete_user_cascade db u).
Proof.
  intros [Hpu Hun Hue Hpm Hpf Hpl Hfm Hff Hfl].
  assert (Hkeep : forall i, In i (map User.id (users db)) -> i <> User.id u ->
            In i (map User.id (users (delete_user_cascade db u)))).
  { intros i Hi Hne. apply in_map_iff in Hi. destruct Hi as [r [E Hr]].
    apply in_map_iff. exists r. split; [exact E|].
    apply in_users_after_delete. split; [exact Hr | congruence]. }
  constructor.
  - apply NoDup_map_filter, Hpu.
  - apply NoDup_map_filter, Hun.
  - apply NoDup_map_filter, Hue.
  - apply NoDup_map_filter, Hpm.
  - apply NoDup_filter, Hpf.
  - apply NoDup_filter, Hpl.
  - intros m Hm. apply in_messages_after_delete in Hm.
    destruct Hm as [Hm Hne]. apply Hkeep; [apply Hfm, Hm | exact Hne].
  - intros f Hf. apply in_follows_after_delete in Hf.
    destruct Hf as [Hf [Hn1 Hn2]]. destruct (Hff f Hf) as [H1 H2].
    split; apply Hkeep; assumption.
  - intros l Hl. apply in_likes_after_delete in Hl.
    destruct Hl as [Hl [Hn Hmsg]]. destruct (Hfl l Hl) as [H1 H2].
    split; [apply Hkeep; assumption|].
    apply in_map_iff in H2. destruct H2 as [m [E Hm]].
    apply in_map_iff. exists m. split; [exact E|].
    apply in_messages_after_delete. split; [exact Hm | exact (Hmsg m Hm E)].
Qed.

(** C6: deleting the logged-in user [U] from a database that satisfies
    its schema logs [U] out and leaves exactly: the users other than [U];
    the messages [U] did not write; the [follows] rows with [U] on
    neither side; the [likes] rows that are not by [U] and not for a
    message [U] wrote.  The result satisfies the schema again, so no row
    refers to a missing user or message. *)
Theorem delete_user_cascades (db : DB) (sess : session) (U : User.t) :
  schema_ok db ->
  add_user_to_g db sess = Some U ->
  let out := delete_user db sess in
  let db' := out_db out in
  out_response out = redirect to_signup
  /\ out_session out = None
  /\ User_query_get db' (User.id U) = None
  /\ (forall r, In r (users db') <->
        In r (users db) /\ User.id r <> User.id U)
  /\ (forall m, In m (messages db') <->
        In m (messages db) /\ Message.user_id m <> User.id U)
  /\ (forall f, In f (follows db') <->
        In f (follows db)
        /\ Follows.user_being_followed_id f <> User.id U
        /\ Follows.user_following_id f <> User.id U)
  /\ (forall l, In l (likes db') <->
        In l (likes db)
        /\ Likes.user_id l <> User.id U
        /\ forall m, In m (messages db) -> Message.id m = Likes.message_id l ->
             Message.user_id m <> User.id U)
  /\ schema_ok db'.
Proof.
  intros Hok Hg out db'. subst db' out. unfold delete_user. rewrite Hg.
  cbn [out_response out_session out_db].
  split; [reflexivity|]. split; [reflexivity|]. split.
  { unfold User_query_get.
    destruct (find (fun u => User.id u =? User.id U)
                   (users (delete_user_cascade db U))) as [r|] eqn:Ef;
      [|reflexivity].
    apply find_some in Ef. destruct Ef as [Hr E]. apply Z.eqb_eq in E.
    apply in_users_after_delete in Hr. tauto. }
  split; [intros r; apply in_users_after_delete|].
  split; [intros m; apply in_messages_after_delete|].
  split; [intros f; apply in_follows_after_delete|].
  split; [intros l; apply in_likes_after_delete|].
  apply schema_ok_after_delete, Hok.
Qed.

Lemma demo_schema_ok : schema_ok demo_db.
Proof.
  constructor; simpl.
  - repeat constructor; simpl; intuition discriminate.
  - repeat constructor; simpl; intuition discriminate.
  - repeat constructor; simpl; intuition discriminate.
  - repeat constructor; simpl; intuition discriminate.
  - repeat constructor; simpl; intuition discriminate.
  - repeat constructor; simpl; intuition discriminate.
  - intros m H. repeat (destruct H as [<-|H]; [simpl; tauto|]). contradiction.
  - intros f H. repeat (destruct H as [<-|H]; [simpl; tauto|]). contradiction.
  - intros l H. repeat (destruct H as [<-|H]; [simpl; tauto|]). contradiction.
Qed.

Lemma delete_user_cascades_witness :
  let db' := out_db (delete_user demo_db (Some 5)) in
  map User.id (users db') = [1; 2; 3; 4]
  /\ map Message.id (messages db') = [10; 11; 13]
  /\ follows db'
     = [Follows.mk 4 1; Follows.mk 4 2; Follows.mk 4 3; Follows.mk 2 1;
        Follows.mk 2 3; Follows.mk 3 1; Follows.mk 3 2]
  /\ likes db' = [Likes.mk 1 11]
  /\ schema_ok db'.
Proof.
  intros db'.
  pose proof (delete_user_cascades demo_db (Some 5) (mk_user 5 "eve")
                demo_schema_ok eq_refl) as H.
  destruct H as [_ [_ [_ [_ [_ [_ [_ Hok]]]]]]].
  split; [reflexivity|]. split; [reflexivity|]. split; [reflexivity|].
  split; [reflexivity | exact Hok].
Defined.

(** ** Profile update *)

Lemma find_map_same_id (i : Z) (u' : User.t) (l : list User.t) (u : User.t) :
  User.id u' = i ->
  find (fun r => User.id r =? i) l = Some u ->
  find (fun r => User.id r =? i)
       (map (fun r => if User.id r =? i then u' else r) l) = Some u'.
Proof.
  intros Ei. induction l as [|x t IH]; simpl; [discriminate|].
  destruct (User.id x =? i) eqn:E.
  - intros _. rewrite Ei, Z.eqb_refl. reflexivity.
  - rewrite E. exact IH.
Qed.

Lemma nth_error_map_other_id
    (i : Z) (u' : User.t) (l : list User.t) (n : nat) (r : User.t) :
  nth_error l n = Some r -> User.id r <> i ->
  nth_error (map (fun x => if User.id x =? i then u' else x) l) n = Some r.
Proof.
  intros Hn Hne. rewrite nth_error_map, Hn. simpl.
  apply Z.eqb_neq in Hne. rewrite Hne. reflexivity.
Qed.

(** C10: when [profile] ends in the redirect to the user's page (the
    update was committed) for the logged-in user [U], the row of [U] keeps
    its id and its password hash and takes username, email, location and
    bio from the form; image_url and header_image_url take the submitted
    value, or keep the old one where the submitted value is blank.  Every
    other row of [users] is unchanged, at its place; the other tables and
    the session are unchanged. *)
Theorem profile_update_frame `{Externals}
    (db : DB) (sess : session) (req : Request) (form : EditProfileForm)
    (U : User.t) :
  add_user_to_g db sess = Some U ->
  out_response (profile db sess req form) = redirect (to_user (User.id U)) ->
  let out := profile db sess req form in
  let db' := out_db out in
  exists U',
    User_query_get db' (User.id U) = Some U'
    /\ (User.id U' = User.id U /\ User.password U' = User.password U)
    /\ (User.username U' = data_str (f_username form)
        /\ User.email U' = data_str (f_email form)
        /\ User.location U' = data (f_location form)
        /\ User.bio U' = data (f_bio form))
    /\ (User.image_url U'
        = (if truthy (data (f_image_url form))
           then data (f_image_url form) else User.image_url U)
        /\ User.header_image_url U'
           = (if truthy (data (f_header_image_url form))
              then data (f_header_image_url form)
              else User.header_image_url U))
    /\ (List.length (users db') = List.length (users db)
        /\ forall n r, nth_error (users db) n = Some r ->
             User.id r <> User.id U -> nth_error (users db') n = Some r)
    /\ (messages db' = messages db /\ follows db' = follows db
        /\ likes db' = likes db)
    /\ out_session out = sess
    /\ out_flashes out = [("Profile updated!", "success")].
Proof.
  intros Hg Hresp out db'. subst db' out. revert Hresp.
  unfold profile. rewrite Hg.
  destruct (validate_on_submit req form); [|discriminate].
  destruct (User_authenticate db (User.username U)
              (data_str (f_password form))); [|discriminate].
  unfold commit_user_update.
  match goal with |- context [existsb ?f (users db)] =>
    destruct (existsb f (users db)) end; [discriminate|].
  intros _. cbn [out_db out_session out_flashes users messages follows likes
                 User.id].
  eexists. split.
  { unfold User_query_get. cbn [users].
    apply find_map_same_id with (u := U); [reflexivity|].
    apply add_user_to_g_Some in Hg. apply Hg. }
  cbn [User.id User.password User.username User.email User.location User.bio
       User.image_url User.header_image_url].
  split; [split; reflexivity|].
  split; [repeat split; reflexivity|].
  split; [split; reflexivity|].
  split.
  { split; [apply length_map|].
    intros n r Hn Hne. apply nth_error_map_other_id; assumption. }
  repeat split; reflexivity.
Qed.

Lemma profile_update_frame_witness :
  let out :=
    @profile toy_externals demo_db (Some 2) (mkRequest POST true None)
             demo_form in
  exists U',
    User_query_get (out_db out) 2 = Some U'
    /\ User.id U' = 2
    /\ User.password U' = "hash-of-bob"
    /\ User.username U' = "bobby"
    /\ User.image_url U' = Some "/static/images/default-pic.png"
    /\ User.header_image_url U' = Some "/static/images/h.png"
    /\ nth_error (users (out_db out)) 0 = Some (mk_user 1 "ann").
Proof.
  intros out.
  destruct (@profile_update_frame toy_externals demo_db (Some 2)
              (mkRequest POST true None) demo_form (mk_user 2 "bob")
              eq_refl eq_refl)
    as [U' [Hget [[Hid Hpw] [[Hname _] [[Himg Hhdr] [[_ Hrest] _]]]]]].
  exists U'. split; [exact Hget|]. split; [exact Hid|]. split; [exact Hpw|].
  split; [exact Hname|]. split; [exact Himg|]. split; [exact Hhdr|].
  apply Hrest; [reflexivity | simpl; lia].
Defined.

(** The password check of [profile] and of the login view rests on bcrypt
    alone: [User.authenticate] returns the first row with the user name
    when bcrypt accepts the password for the stored hash, and nothing
    otherwise. *)
Lemma User_authenticate_spec `{Externals} (db : DB) (name pw : string) :
  User_authenticate db name pw
  = match User_by_username db name with
    | Some u => if check_password_hash (User.password u) pw
                then Some u else None
    | None => None
    end.
Proof. reflexivity. Qed.

Lemma User_signup_password `{Externals}
    (i : Z) (salt name mail pw : string) (img : option string) :
  User.password (User_signup i salt name mail pw img)
  = generate_password_hash salt pw.
Proof. reflexivity. Qed.

(* ================================================================== *)
(** * Further properties *)

(** ** The follow relationships (models.py) *)

Lemma in_followers (db : DB) (u x : User.t) :
  In x (followers db u) <->
  In x (users db)
  /\ In (Follows.mk (User.id u) (User.id x)) (follows db).
Proof.
  unfold followers. rewrite in_flat_map. split.
  - intros [f [Hf Hx]].
    destruct (Z.eqb_spec (Follows.user_being_followed_id f) (User.id u)) as [E|E];
      [|contradiction].
    apply filter_In in Hx. destruct Hx as [Hx E2]. apply Z.eqb_eq in E2.
    split; [exact Hx|]. destruct f as [a b]; simpl in *. subst. exact Hf.
  - intros [Hx Hf]. exists (Follows.mk (User.id u) (User.id x)).
    split; [exact Hf|]. simpl. rewrite Z.eqb_refl.
    apply filter_In. split; [exact Hx | apply Z.eqb_refl].
Qed.

Lemma is_followed_by_true (db : DB) (c u : User.t) :
  is_followed_by db c u = true <->
  exists x, In x (users db) /\ User.id x = User.id u
            /\ In (Follows.mk (User.id c) (User.id u)) (follows db).
Proof.
  unfold is_followed_by. rewrite existsb_exists. split.
  - intros [x [Hx E]]. apply Z.eqb_eq in E. apply in_followers in Hx.
    exists x. rewrite <- E. tauto.
  - intros [x [Hx [E Hf]]]. exists x. split; [|now apply Z.eqb_eq].
    apply in_followers. rewrite E. tauto.
Qed.

(** X1: for two users of the table, [a.is_following(b)] and
    [b.is_followed_by(a)] agree, and both say that the [follows] table
    has the row (followed [b], follower [a]). *)
Theorem is_following_is_followed_by (db : DB) (a b : User.t) :
  In a (users db) -> In b (users db) ->
  is_following db a b = is_followed_by db b a
  /\ (is_following db a b = true <->
      In (Follows.mk (User.id b) (User.id a)) (follows db)).
Proof.
  intros Ha Hb.
  assert (H1 : is_following db a b = true <->
               In (Follows.mk (User.id b) (User.id a)) (follows db)).
  { rewrite is_following_true. split.
    - intros [x [_ [_ Hf]]]. exact Hf.
    - intros Hf. exists b. auto. }
  assert (H2 : is_followed_by db b a = true <->
               In (Follows.mk (User.id b) (User.id a)) (follows db)).
  { rewrite is_followed_by_true. split.
    - intros [x [_ [_ Hf]]]. exact Hf.
    - intros Hf. exists a. auto. }
  split; [|exact H1].
  apply eq_true_iff_eq. rewrite H1, H2. reflexivity.
Qed.

Lemma is_following_is_followed_by_witness :
  is_following demo_db (mk_user 1 "ann") (mk_user 5 "eve") = true
  /\ is_followed_by demo_db (mk_user 5 "eve") (mk_user 1 "ann") = true.
Proof.
  assert (Ha : In (mk_user 1 "ann") (users demo_db)) by (simpl; tauto).
  assert (Hb : In (mk_user 5 "eve") (users demo_db)) by (simpl; auto 10).
  destruct (is_following_is_followed_by demo_db _ _ Ha Hb) as [E _].
  rewrite <- E. split; reflexivity.
Defined.

(** Under the primary key, the rows with a given id are one or none. *)
Lemma filter_by_id_length (l : list User.t) (i : Z) :
  NoDup (map User.id l) -> In i (map User.id l) ->
  List.length (filter (fun c => i =? User.id c) l) = 1%nat.
Proof.
  induction l as [|x t IH]; simpl; intros Hnd Hin; [contradiction|].
  inversion Hnd as [|? ? Hx Hnd']; subst.
  destruct (Z.eqb_spec i (User.id x)) as [E|E].
  - simpl. f_equal.
    destruct (filter (fun c => i =? User.id c) t) as [|y r] eqn:Ef;
      [reflexivity|].
    assert (Hy : In y (filter (fun c => i =? User.id c) t))
      by (rewrite Ef; now left).
    apply filter_In in Hy. destruct Hy as [Hy Ey]. apply Z.eqb_eq in Ey.
    exfalso. apply Hx. rewrite <- E, Ey. apply in_map, Hy.
  - destruct Hin as [Hin|Hin]; [congruence|]. apply IH; assumption.
Qed.

(** X2: in a database that satisfies its schema, the count the
    suggestion query ranks by is the size of the candidate's [followers]
    collection. *)
Theorem follower_count_followers (db : DB) (c : User.t) :
  schema_ok db ->
  follower_count db c = List.length (followers db c).
Proof.
  intros Hok. pose proof (pk_users db Hok) as Hpk.
  pose proof (fk_follows db Hok) as Hfk.
  unfold follower_count, followers. revert Hfk.
  generalize (follows db) as l.
  induction l as [|f t IH]; simpl; intros Hfk; [reflexivity|].
  rewrite length_app.
  assert (Ht : forall f0, In f0 t ->
            In (Follows.user_being_followed_id f0) (map User.id (users db))
            /\ In (Follows.user_following_id f0) (map User.id (users db))).
  { intros f0 H0. apply Hfk. now right. }
  destruct (Follows.user_being_followed_id f =? User.id c).
  - simpl. rewrite (IH Ht). rewrite filter_by_id_length; [reflexivity|exact Hpk|].
    apply (Hfk f). now left.
  - simpl. apply IH, Ht.
Qed.

Lemma follower_count_followers_witness :
  follower_count demo_db (mk_user 4 "dan") = 3%nat
  /\ map User.id (followers demo_db (mk_user 4 "dan")) = [1; 2; 3].
Proof.
  split; [|reflexivity].
  rewrite (follower_count_followers demo_db (mk_user 4 "dan") demo_schema_ok).
  reflexivity.
Defined.

(** ** Following and unfollowing (app.py) *)

Lemma filter_all {A} (p : A -> bool) (l : list A) :
  (forall x, In x l -> p x = true) -> filter p l = l.
Proof.
  induction l as [|x t IH]; simpl; intros H; [reflexivity|].
  rewrite (H x (or_introl eq_refl)), IH; [reflexivity|].
  intros y Hy. apply H. now right.
Qed.

Lemma filter_nothing {A} (p : A -> bool) (l : list A) :
  (forall x, In x l -> p x = false) -> filter p l = [].
Proof.
  induction l as [|x t IH]; simpl; intros H; [reflexivity|].
  rewrite (H x (or_introl eq_refl)). apply IH.
  intros y Hy. apply H. now right.
Qed.

Lemma existsb_same_user_self (x : User.t) (l : list User.t) :
  In x l -> existsb (same_user x) l = true.
Proof.
  intros Hx. apply existsb_exists. exists x. split; [exact Hx|].
  apply Z.eqb_refl.
Qed.

Lemma existsb_same_user_is_following (db : DB) (U V : User.t) :
  existsb (same_user V) (following db U) = is_following db U V.
Proof.
  unfold is_following, same_user. induction (following db U) as [|x t IH];
    simpl; [reflexivity|].
  rewrite IH, (Z.eqb_sym (User.id V) (User.id x)). reflexivity.
Qed.

(** The commit after [following.append(V)] for a user not yet followed:
    one row is inserted. *)
Lemma commit_following_append (db : DB) (U V : User.t) :
  is_following db U V = false ->
  commit_following db U (following db U ++ [V])
  = mkDB (users db) (messages db)
         (follows db ++ [Follows.mk (User.id V) (User.id U)]) (likes db).
Proof.
  intros Hnot. unfold commit_following.
  rewrite (filter_nothing
             (fun o => negb (existsb (same_user o) (following db U ++ [V])))).
  2:{ intros x Hx. apply negb_false_iff, existsb_same_user_self.
      apply in_or_app. now left. }
  rewrite filter_app.
  rewrite (filter_nothing
             (fun c => negb (existsb (same_user c) (following db U)))
             (following db U)).
  2:{ intros x Hx. apply negb_false_iff, existsb_same_user_self, Hx. }
  simpl. rewrite existsb_same_user_is_following, Hnot. simpl.
  rewrite filter_all; [reflexivity|].
  intros f _. rewrite andb_false_r. reflexivity.
Qed.

Lemma add_follow_new_outcome
    (db : DB) (sess : session) (U V : User.t) (T : Z) :
  add_user_to_g db sess = Some U ->
  User_query_get db T = Some V ->
  is_following db U V = false ->
  add_follow db sess T
  = mkOut (redirect (to_user_following (User.id U))) []
          (mkDB (users db) (messages db)
                (follows db ++ [Follows.mk (User.id V) (User.id U)])
                (likes db))
          sess.
Proof.
  intros Hg HT Hnot. unfold add_follow. rewrite Hg, HT.
  rewrite commit_following_append; [reflexivity | exact Hnot].
Qed.

Lemma User_query_get_Some (db : DB) (i : Z) (V : User.t) :
  User_query_get db i = Some V -> In V (users db) /\ User.id V = i.
Proof.
  unfold User_query_get. intros H. apply find_some in H.
  destruct H as [Hin E]. apply Z.eqb_eq in E. auto.
Qed.

Lemma schema_ok_add_follows_row (db : DB) (U V : User.t) :
  schema_ok db -> In U (users db) -> In V (users db) ->
  ~ In (Follows.mk (User.id V) (User.id U)) (follows db) ->
  schema_ok (mkDB (users db) (messages db)
                  (follows db ++ [Follows.mk (User.id V) (User.id U)])
                  (likes db)).
Proof.
  intros [Hpu Hun Hue Hpm Hpf Hpl Hfm Hff Hfl] HU HV Hnew.
  constructor; simpl; try assumption.
  - apply NoDup_snoc; assumption.
  - intros f Hf. apply in_app_or in Hf. destruct Hf as [Hf|[<-|[]]].
    + apply Hff, Hf.
    + simpl. split; apply in_map; assumption.
Qed.

(** X3: when the logged-in user [U] follows an existing user [V] that is
    not yet in [U.following], [add_follow] inserts exactly the row
    (followed [V], follower [U]) and changes nothing else; afterwards
    [U.is_following(V)] holds, and a database that satisfied its schema
    still does. *)
Theorem add_follow_new
    (db : DB) (sess : session) (U V : User.t) (T : Z) :
  add_user_to_g db sess = Some U ->
  User_query_get db T = Some V ->
  is_following db U V = false ->
  let out := add_follow db sess T in
  out_response out = redirect (to_user_following (User.id U))
  /\ follows (out_db out) = follows db ++ [Follows.mk T (User.id U)]
  /\ (users (out_db out) = users db /\ messages (out_db out) = messages db
      /\ likes (out_db out) = likes db /\ out_session out = sess)
  /\ is_following (out_db out) U V = true
  /\ (schema_ok db -> schema_ok (out_db out)).
Proof.
  intros Hg HT Hnot out. subst out.
  rewrite (add_follow_new_outcome db sess U V T Hg HT Hnot).
  cbn [out_response out_db out_session users messages follows likes].
  destruct (User_query_get_Some db T V HT) as [HV ET].
  destruct (add_user_to_g_Some db sess U Hg) as [_ [HU _]].
  split; [reflexivity|]. split; [rewrite ET; reflexivity|].
  split; [repeat split; reflexivity|]. split.
  - apply is_following_true. exists V. split; [exact HV|].
    split; [reflexivity|]. simpl. apply in_or_app. right. now left.
  - intros Hok. apply schema_ok_add_follows_row; try assumption.
    intros Hin.
    assert (Hf : is_following db U V = true).
    { apply is_following_true. exists V. auto. }
    congruence.
Qed.

Lemma add_follow_new_witness :
  follows (out_db (add_follow demo_db (Some 2) 5))
  = follows demo_db ++ [Follows.mk 5 2]
  /\ is_following (out_db (add_follow demo_db (Some 2) 5))
                  (mk_user 2 "bob") (mk_user 5 "eve") = true.
Proof.
  destruct (add_follow_new demo_db (Some 2) (mk_user 2 "bob")
              (mk_user 5 "eve") 5 eq_refl eq_refl eq_refl)
    as [_ [Hf [_ [Hfol _]]]].
  split; [exact Hf | exact Hfol].
Defined.

(** X4: [add_follow] has no guard against following oneself: a logged-in
    user who posts their own id gets the row (followed [U], follower [U])
    and from then on counts as following, and followed by, themselves. *)
Theorem add_follow_self (db : DB) (sess : session) (U : User.t) :
  add_user_to_g db sess = Some U ->
  is_following db U U = false ->
  let db' := out_db (add_follow db sess (User.id U)) in
  In (Follows.mk (User.id U) (User.id U)) (follows db')
  /\ is_following db' U U = true
  /\ is_followed_by db' U U = true.
Proof.
  intros Hg Hnot db'. subst db'.
  destruct (add_user_to_g_Some db sess U Hg) as [_ [HU Hget]].
  rewrite (add_follow_new_outcome db sess U U (User.id U) Hg Hget Hnot).
  cbn [out_db].
  assert (Hrow : In (Follows.mk (User.id U) (User.id U))
                    (follows db ++ [Follows.mk (User.id U) (User.id U)])).
  { apply in_or_app. right. now left. }
  split; [exact Hrow|]. split.
  - apply is_following_true. exists U. auto.
  - apply is_followed_by_true. exists U. auto.
Qed.

Lemma add_follow_self_witness :
  is_following (out_db (add_follow demo_db (Some 5) 5))
               (mk_user 5 "eve") (mk_user 5 "eve") = true.
Proof.
  destruct (add_follow_self demo_db (Some 5) (mk_user 5 "eve")
              eq_refl eq_refl) as [_ [H _]].
  exact H.
Defined.

(** Under the keys of [users] and [follows], no user is twice in a
    [following] collection. *)
Lemma following_ids_NoDup (db : DB) (u : User.t) :
  schema_ok db -> NoDup (map User.id (following db u)).
Proof.
  intros Hok. pose proof (pk_users db Hok) as Hpk.
  pose proof (pk_follows db Hok) as Hpf. unfold following. revert Hpf.
  generalize (follows db) as l.
  induction l as [|f t IH]; simpl; intros Hnd; [constructor|].
  inversion Hnd as [|? ? Hf Hnd']; subst.
  rewrite map_app. apply NoDup_app.
  - destruct (Follows.user_following_id f =? User.id u); [|constructor].
    apply NoDup_map_filter, Hpk.
  - apply IH, Hnd'.
  - intros i Hi Hi'.
    destruct (Z.eqb_spec (Follows.user_following_id f) (User.id u)) as [E|E];
      [|contradiction].
    apply in_map_iff in Hi. destruct Hi as [x [Ex Hx]].
    apply filter_In in Hx. destruct Hx as [_ Efx]. apply Z.eqb_eq in Efx.
    apply in_map_iff in Hi'. destruct Hi' as [y [Ey Hy]].
    apply in_flat_map in Hy. destruct Hy as [f' [Hf' Hy]].
    destruct (Z.eqb_spec (Follows.user_following_id f') (User.id u)) as [E'|E'];
      [|contradiction].
    apply filter_In in Hy. destruct Hy as [_ Efy]. apply Z.eqb_eq in Efy.
    apply Hf. destruct f as [a b], f' as [a' b']; simpl in *.
    assert (Ea : a = a') by congruence. assert (Eb : b = b') by congruence.
    rewrite Ea, Eb. exact Hf'.
Qed.

(** [list.remove] on a collection that holds the object: the first entry
    of that row is the one taken out. *)
Lemma list_remove_present (L : list User.t) (V : User.t) :
  existsb (same_user V) L = true ->
  exists L1 x L2,
    L = L1 ++ x :: L2
    /\ User.id x = User.id V
    /\ list_remove same_obj (Some V) (map Some L) = Some (map Some (L1 ++ L2)).
Proof.
  induction L as [|y t IH]; simpl; [discriminate|].
  destruct (Z.eqb_spec (User.id y) (User.id V)) as [E|E].
  - intros _. exists [], y, t. simpl. unfold same_user.
    rewrite E, Z.eqb_refl. auto.
  - assert (H1 : same_user V y = false)
      by (unfold same_user; apply Z.eqb_neq; congruence).
    assert (H2 : same_user y V = false)
      by (unfold same_user; apply Z.eqb_neq; congruence).
    rewrite H1, H2. simpl. intros H.
    destruct (IH H) as [L1 [x [L2 [EL [Ex Erem]]]]].
    exists (y :: L1), x, L2. rewrite Erem, EL. simpl. auto.
Qed.

Lemma unwrap_map_Some (L : list User.t) :
  flat_map (fun o : option User.t => match o with Some x => [x] | None => [] end)
           (map Some L) = L.
Proof. induction L as [|x t IH]; simpl; [reflexivity | now rewrite IH]. Qed.

(** The commit after [following.remove(V)] took out the entry [x]: the
    row of [x] is deleted. *)
Lemma commit_following_remove (db : DB) (U x : User.t) (L1 L2 : list User.t) :
  following db U = L1 ++ x :: L2 ->
  NoDup (map User.id (following db U)) ->
  commit_following db U (L1 ++ L2)
  = mkDB (users db) (messages db)
         (filter (fun f => negb ((Follows.user_following_id f =? User.id U)
                                 && (Follows.user_being_followed_id f
                                     =? User.id x)))
                 (follows db))
         (likes db).
Proof.
  intros EL Hnd. unfold commit_following. rewrite EL in *.
  assert (Hx : existsb (same_user x) (L1 ++ L2) = false).
  { apply existsb_false_iff. intros y Hy. unfold same_user.
    apply Z.eqb_neq. intros E.
    rewrite map_app in Hnd. simpl in Hnd. apply NoDup_remove_2 in Hnd.
    apply Hnd. rewrite <- map_app, E. apply in_map, Hy. }
  assert (Hdel : filter (fun o => negb (existsb (same_user o) (L1 ++ L2)))
                        (L1 ++ x :: L2) = [x]).
  { rewrite filter_app. simpl. rewrite Hx. simpl.
    rewrite !filter_nothing; [reflexivity| |].
    - intros y Hy. apply negb_false_iff, existsb_same_user_self.
      apply in_or_app. now right.
    - intros y Hy. apply negb_false_iff, existsb_same_user_self.
      apply in_or_app. now left. }
  assert (Hadd : filter (fun c => negb (existsb (same_user c) (L1 ++ x :: L2)))
                        (L1 ++ L2) = []).
  { apply filter_nothing. intros y Hy.
    apply negb_false_iff, existsb_same_user_self.
    apply in_app_or in Hy. apply in_or_app. simpl. tauto. }
  rewrite Hdel, Hadd. simpl. rewrite app_nil_r. f_equal.
  apply filter_ext. intros f. rewrite orb_false_r. reflexivity.
Qed.

Lemma stop_following_followed_outcome
    (db : DB) (sess : session) (U V : User.t) (T : Z) :
  schema_ok db ->
  add_user_to_g db sess = Some U ->
  User_query_get db T = Some V ->
  is_following db U V = true ->
  stop_following db sess T
  = mkOut (redirect (to_user_following (User.id U))) []
          (mkDB (users db) (messages db)
                (filter
                   (fun f => negb ((Follows.user_following_id f =? User.id U)
                                   && (Follows.user_being_followed_id f =? T)))
                   (follows db))
                (likes db))
          sess.
Proof.
  intros Hok Hg HT Hfol. unfold stop_following. rewrite Hg, HT.
  rewrite <- existsb_same_user_is_following in Hfol.
  destruct (list_remove_present (following db U) V Hfol)
    as [L1 [x [L2 [EL [Ex Erem]]]]].
  rewrite Erem, unwrap_map_Some.
  rewrite (commit_following_remove db U x L1 L2 EL
             (following_ids_NoDup db U Hok)).
  destruct (User_query_get_Some db T V HT) as [_ ET].
  rewrite Ex, ET. reflexivity.
Qed.

Lemma schema_ok_filter_follows (db : DB) (p : Follows.t -> bool) :
  schema_ok db ->
  schema_ok (mkDB (users db) (messages db) (filter p (follows db)) (likes db)).
Proof.
  intros [Hpu Hun Hue Hpm Hpf Hpl Hfm Hff Hfl].
  constructor; simpl; try assumption.
  - apply NoDup_filter, Hpf.
  - intros f Hf. apply filter_In in Hf. apply Hff, Hf.
Qed.

Lemma follows_row_eq (f : Follows.t) (a b : Z) :
  (Follows.user_following_id f =? b) && (Follows.user_being_followed_id f =? a)
  = true <-> f = Follows.mk a b.
Proof.
  rewrite andb_true_iff, !Z.eqb_eq. destruct f as [x y]; simpl. split.
  - intros [-> ->]. reflexivity.
  - intros E. injection E as -> ->. auto.
Qed.

(** X5: in a database that satisfies its schema, when the logged-in user
    [U] follows the user [V] with id [T], [stop_following] deletes the row
    (followed [T], follower [U]) and no other: every other [follows] row
    and the other tables stay, [U.is_following(V)] no longer holds, and the
    schema holds again. *)
Theorem stop_following_removes_edge
    (db : DB) (sess : session) (U V : User.t) (T : Z) :
  schema_ok db ->
  add_user_to_g db sess = Some U ->
  User_query_get db T = Some V ->
  is_following db U V = true ->
  let out := stop_following db sess T in
  out_response out = redirect (to_user_following (User.id U))
  /\ (forall f, In f (follows (out_db out)) <->
        In f (follows db) /\ f <> Follows.mk T (User.id U))
  /\ (users (out_db out) = users db /\ messages (out_db out) = messages db
      /\ likes (out_db out) = likes db /\ out_session out = sess)
  /\ is_following (out_db out) U V = false
  /\ schema_ok (out_db out).
Proof.
  intros Hok Hg HT Hfol out. subst out.
  rewrite (stop_following_followed_outcome db sess U V T Hok Hg HT Hfol).
  cbn [out_response out_db out_session users messages follows likes].
  assert (Hrows : forall f,
            In f (filter
                    (fun f => negb ((Follows.user_following_id f =? User.id U)
                                    && (Follows.user_being_followed_id f =? T)))
                    (follows db)) <->
            In f (follows db) /\ f <> Follows.mk T (User.id U)).
  { intros f. rewrite filter_In, negb_true_iff, <- follows_row_eq.
    destruct ((Follows.user_following_id f =? User.id U)
              && (Follows.user_being_followed_id f =? T)); intuition congruence. }
  split; [reflexivity|]. split; [exact Hrows|].
  split; [repeat split; reflexivity|]. split.
  - match goal with |- ?b = false => destruct b eqn:E end; [|reflexivity].
    apply is_following_true in E. destruct E as [_ [_ [_ Hin]]].
    cbn [follows] in Hin. apply Hrows in Hin. destruct Hin as [_ Hne].
    destruct (User_query_get_Some db T V HT) as [_ ET].
    exfalso. apply Hne. rewrite ET. reflexivity.
  - apply schema_ok_filter_follows, Hok.
Qed.

Lemma stop_following_removes_edge_witness :
  follows (out_db (stop_following demo_db (Some 2) 4))
  = [Follows.mk 4 1; Follows.mk 4 3; Follows.mk 2 1; Follows.mk 2 3;
     Follows.mk 3 1; Follows.mk 3 2; Follows.mk 5 1]
  /\ is_following (out_db (stop_following demo_db (Some 2) 4))
                  (mk_user 2 "bob") (mk_user 4 "dan") = false.
Proof.
  destruct (stop_following_removes_edge demo_db (Some 2) (mk_user 2 "bob")
              (mk_user 4 "dan") 4 demo_schema_ok eq_refl eq_refl eq_refl)
    as [_ [_ [_ [H _]]]].
  split; [reflexivity | exact H].
Defined.

Lemma DB_eta (db : DB) :
  mkDB (users db) (messages db) (follows db) (likes db) = db.
Proof. destruct db; reflexivity. Qed.

Lemma not_following_no_row (db : DB) (U V : User.t) :
  In V (users db) -> is_following db U V = false ->
  ~ In (Follows.mk (User.id V) (User.id U)) (follows db).
Proof.
  intros HV Hnot Hin.
  assert (H : is_following db U V = true)
    by (apply is_following_true; exists V; auto).
  congruence.
Qed.

(** X6: following a user that was not followed and then unfollowing the
    same id gives back the database as it was. *)
Theorem add_follow_then_stop_following
    (db : DB) (sess : session) (U V : User.t) (T : Z) :
  schema_ok db ->
  add_user_to_g db sess = Some U ->
  User_query_get db T = Some V ->
  is_following db U V = false ->
  let o1 := add_follow db sess T in
  let o2 := stop_following (out_db o1) (out_session o1) T in
  out_response o2 = redirect (to_user_following (User.id U))
  /\ out_db o2 = db
  /\ out_session o2 = sess.
Proof.
  intros Hok Hg HT Hnot o1 o2. subst o2 o1.
  rewrite (add_follow_new_outcome db sess U V T Hg HT Hnot).
  cbn [out_db out_session].
  destruct (User_query_get_Some db T V HT) as [HV ET].
  destruct (add_user_to_g_Some db sess U Hg) as [_ [HU _]].
  pose proof (not_following_no_row db U V HV Hnot) as Hrow.
  set (db1 := mkDB (users db) (messages db)
                   (follows db ++ [Follows.mk (User.id V) (User.id U)])
                   (likes db)).
  assert (Hok1 : schema_ok db1)
    by (apply schema_ok_add_follows_row; assumption).
  assert (Hfol1 : is_following db1 U V = true).
  { apply is_following_true. exists V. split; [exact HV|].
    split; [reflexivity|]. simpl. apply in_or_app. right. now left. }
  rewrite (stop_following_followed_outcome db1 sess U V T Hok1 Hg HT Hfol1).
  cbn [out_response out_db out_session db1 users messages follows likes].
  split; [reflexivity|]. split; [|reflexivity].
  rewrite filter_app. simpl. rewrite ET, !Z.eqb_refl. simpl.
  rewrite app_nil_r, filter_all; [apply DB_eta|].
  intros f Hf. apply negb_true_iff.
  destruct ((Follows.user_following_id f =? User.id U)
            && (Follows.user_being_followed_id f =? T)) eqn:E; [|reflexivity].
  apply follows_row_eq in E. subst f. rewrite <- ET in Hf. contradiction.
Qed.

Lemma add_follow_then_stop_following_witness :
  out_db (stop_following (out_db (add_follow demo_db (Some 2) 5)) (Some 2) 5)
  = demo_db.
Proof.
  destruct (add_follow_then_stop_following demo_db (Some 2) (mk_user 2 "bob")
              (mk_user 5 "eve") 5 demo_schema_ok eq_refl eq_refl eq_refl)
    as [_ [H _]].
  exact H.
Defined.

Lemma list_remove_None_arg (L : list User.t) :
  list_remove same_obj None (map Some L) = None.
Proof.
  apply list_remove_absent. intros y Hy. apply in_map_iff in Hy.
  destruct Hy as [v [<- _]]. reflexivity.
Qed.

Lemma list_remove_not_following (db : DB) (U V : User.t) :
  is_following db U V = false ->
  list_remove same_obj (Some V) (map Some (following db U)) = None.
Proof.
  intros Hnot. apply list_remove_absent. intros y Hy.
  apply in_map_iff in Hy. destruct Hy as [v [<- Hv]]. simpl.
  rewrite <- existsb_same_user_is_following in Hnot.
  pose proof (proj1 (existsb_false_iff _ _) Hnot v Hv) as H.
  unfold same_user in *. rewrite Z.eqb_sym. exact H.
Qed.

(** X7: whatever the request, [stop_following] never inserts or alters a
    row: the [follows] rows it leaves are rows that were there, the other
    tables and the session are untouched, and a database that satisfied
    its schema still does. *)
Theorem stop_following_only_removes (db : DB) (sess : session) (T : Z) :
  schema_ok db ->
  let out := stop_following db sess T in
  (forall f, In f (follows (out_db out)) -> In f (follows db))
  /\ (users (out_db out) = users db /\ messages (out_db out) = messages db
      /\ likes (out_db out) = likes db /\ out_session out = sess)
  /\ schema_ok (out_db out).
Proof.
  intros Hok out. subst out.
  assert (Hsame : forall o : outcome, out_db o = db -> out_session o = sess ->
            (forall f, In f (follows (out_db o)) -> In f (follows db))
            /\ (users (out_db o) = users db /\ messages (out_db o) = messages db
                /\ likes (out_db o) = likes db /\ out_session o = sess)
            /\ schema_ok (out_db o)).
  { intros o E Hs. rewrite E. split; [auto|]. split; [auto | exact Hok]. }
  destruct (add_user_to_g db sess) as [U|] eqn:Hg.
  2:{ apply Hsame; unfold stop_following; rewrite Hg; reflexivity. }
  destruct (User_query_get db T) as [V|] eqn:HT.
  2:{ apply Hsame; unfold stop_following; rewrite Hg, HT, list_remove_None_arg;
        reflexivity. }
  destruct (is_following db U V) eqn:Hfol.
  2:{ apply Hsame; unfold stop_following;
        rewrite Hg, HT, (list_remove_not_following db U V Hfol); reflexivity. }
  rewrite (stop_following_followed_outcome db sess U V T Hok Hg HT Hfol).
  cbn [out_db out_session users messages follows likes].
  split; [intros f Hf; apply filter_In in Hf; apply Hf|].
  split; [repeat split; reflexivity|].
  apply schema_ok_filter_follows, Hok.
Qed.

Lemma stop_following_only_removes_witness :
  schema_ok (out_db (stop_following demo_db (Some 1) 5))
  /\ List.length (follows (out_db (stop_following demo_db (Some 1) 5))) = 7%nat.
Proof.
  destruct (stop_following_only_removes demo_db (Some 1) 5 demo_schema_ok)
    as [_ [_ H]].
  split; [exact H | reflexivity].
Defined.

(** ** Likes keep the schema *)

(** X8: whatever the request, [toggle_like] leaves a database that
    satisfied its schema in one that does: [likes] keeps its primary key
    and every row it holds names an existing user and an existing
    message. *)
Theorem toggle_like_schema_ok
    (db : DB) (sess : session) (req : Request) (message_id : Z) :
  schema_ok db -> schema_ok (out_db (toggle_like db sess req message_id)).
Proof.
  intros Hok. unfold toggle_like.
  destruct (add_user_to_g db sess) as [U|] eqn:Hg; [|exact Hok].
  destruct (Message_query_get db message_id) as [M|] eqn:Hm; [|exact Hok].
  destruct (Message.user_id M =? User.id U); [exact Hok|].
  cbn [out_db].
  destruct (add_user_to_g_Some db sess U Hg) as [_ [HU _]].
  unfold Message_query_get in Hm. apply find_some in Hm.
  destruct Hm as [HM EM]. apply Z.eqb_eq in EM.
  destruct Hok as [Hpu Hun Hue Hpm Hpf Hpl Hfm Hff Hfl].
  destruct (find (like_row (User.id U) message_id) (likes db)) eqn:Ef.
  - constructor; simpl; try assumption.
    + apply NoDup_filter, Hpl.
    + intros l Hl. apply filter_In in Hl. apply Hfl, Hl.
  - constructor; simpl; try assumption.
    + apply NoDup_snoc; [exact Hpl|]. intros Hin.
      pose proof (find_none _ _ Ef _ Hin) as H. unfold like_row in H.
      simpl in H. rewrite !Z.eqb_refl in H. discriminate H.
    + intros l Hl. apply in_app_or in Hl. destruct Hl as [Hl|[<-|[]]].
      * apply Hfl, Hl.
      * simpl. split; [apply in_map, HU|].
        rewrite <- EM. apply in_map, HM.
Qed.

Lemma toggle_like_schema_ok_witness :
  schema_ok (out_db (toggle_like demo_db (Some 2) (mkRequest POST true None) 13))
  /\ likes (out_db (toggle_like demo_db (Some 2) (mkRequest POST true None) 13))
     = likes demo_db ++ [Likes.mk 2 13].
Proof.
  split; [|reflexivity].
  apply (toggle_like_schema_ok demo_db (Some 2) (mkRequest POST true None) 13
           demo_schema_ok).
Defined.

(** ** Looking rows up by a unique column *)

Lemma find_by_id (l : list User.t) (x : User.t) :
  NoDup (map User.id l) -> In x l ->
  find (fun u => User.id u =? User.id x) l = Some x.
Proof.
  induction l as [|y t IH]; simpl; intros Hnd Hin; [contradiction|].
  inversion Hnd as [|? ? Hy Hnd']; subst.
  destruct Hin as [->|Hin]; [now rewrite Z.eqb_refl|].
  destruct (Z.eqb_spec (User.id y) (User.id x)) as [E|E]; [|auto].
  exfalso. apply Hy. rewrite E. apply in_map, Hin.
Qed.

Lemma find_by_username (l : list User.t) (x : User.t) :
  NoDup (map User.username l) -> In x l ->
  find (fun u => (User.username u =? User.username x)%string) l = Some x.
Proof.
  induction l as [|y t IH]; simpl; intros Hnd Hin; [contradiction|].
  inversion Hnd as [|? ? Hy Hnd']; subst.
  destruct Hin as [->|Hin]; [now rewrite String.eqb_refl|].
  destruct (String.eqb_spec (User.username y) (User.username x)) as [E|E];
    [|auto].
  exfalso. apply Hy. rewrite E. apply in_map, Hin.
Qed.

(** ** Authentication (models.py) *)

(** X9: over a table with unique user names, [User.authenticate] returns
    the user [u] exactly when [u] is the row of that name and bcrypt
    accepts the password for the hash stored in it; and it returns
    [False] for a name no row has, whatever the password. *)
Theorem User_authenticate_iff `{Externals}
    (db : DB) (name pw : string) (u : User.t) :
  schema_ok db ->
  (User_authenticate db name pw = Some u <->
   In u (users db) /\ User.username u = name
   /\ check_password_hash (User.password u) pw = true)
  /\ ((forall r, In r (users db) -> User.username r <> name) ->
      User_authenticate db name pw = None).
Proof.
  intros Hok. unfold User_authenticate, User_by_username. split.
  - split.
    + destruct (find _ (users db)) as [r|] eqn:Ef; [|discriminate].
      apply find_some in Ef. destruct Ef as [Hin E].
      apply String.eqb_eq in E.
      destruct (check_password_hash (User.password r) pw) eqn:Ec;
        [|discriminate].
      intros Er. injection Er as <-. auto.
    + intros [Hin [<- Ec]].
      rewrite (find_by_username (users db) u (uq_username db Hok) Hin), Ec.
      reflexivity.
  - intros Hnone.
    destruct (find _ (users db)) as [r|] eqn:Ef; [|reflexivity].
    apply find_some in Ef. destruct Ef as [Hin E].
    apply String.eqb_eq in E. exfalso. exact (Hnone r Hin E).
Qed.

Lemma User_authenticate_iff_witness :
  @User_authenticate toy_externals demo_db "bob" "bob"
  = Some (mk_user 2 "bob")
  /\ @User_authenticate toy_externals demo_db "zed" "bob" = None.
Proof.
  destruct (@User_authenticate_iff toy_externals demo_db "bob" "bob"
              (mk_user 2 "bob") demo_schema_ok) as [[_ Hyes] _].
  destruct (@User_authenticate_iff toy_externals demo_db "zed" "bob"
              (mk_user 2 "bob") demo_schema_ok) as [_ Hno].
  split.
  - apply Hyes. split; [simpl; tauto|]. split; reflexivity.
  - apply Hno. intros r Hr. simpl in Hr.
    repeat (destruct Hr as [<-|Hr]; [discriminate|]). contradiction.
Defined.

(** ** Profile update: the paths that do not commit *)

(** X10: [profile] asks for the current password: over a table with
    unique user names, when bcrypt rejects the submitted password for the
    stored hash of the logged-in user, nothing is written: the database
    and the session are unchanged and the form is shown again, with
    "Incorrect password." if the form was valid. *)
Theorem profile_wrong_password `{Externals}
    (db : DB) (sess : session) (req : Request) (form : EditProfileForm)
    (U : User.t) :
  schema_ok db ->
  add_user_to_g db sess = Some U ->
  check_password_hash (User.password U) (data_str (f_password form)) = false ->
  let out := profile db sess req form in
  out_db out = db
  /\ out_session out = sess
  /\ out_response out = render_users_edit form
  /\ (validate_on_submit req form = true ->
      out_flashes out = [("Incorrect password.", "danger")]).
Proof.
  intros Hok Hg Hrej out. subst out. unfold profile. rewrite Hg.
  destruct (add_user_to_g_Some db sess U Hg) as [_ [HU _]].
  destruct (validate_on_submit req form).
  - unfold User_authenticate, User_by_username.
    rewrite (find_by_username (users db) U (uq_username db Hok) HU), Hrej.
    repeat split; reflexivity.
  - repeat split; try reflexivity. discriminate.
Qed.

Lemma profile_wrong_password_witness :
  let form :=
    mkEditProfileForm (submitted "bobby") (submitted "bobby@example.com")
                      (submitted "") (submitted "") (submitted "")
                      (submitted "") (submitted "guess") in
  let out :=
    @profile toy_externals demo_db (Some 2) (mkRequest POST true None) form in
  out_db out = demo_db
  /\ out_flashes out = [("Incorrect password.", "danger")].
Proof.
  intros form out.
  destruct (@profile_wrong_password toy_externals demo_db (Some 2)
              (mkRequest POST true None) form (mk_user 2 "bob")
              demo_schema_ok eq_refl eq_refl) as [Hdb [_ [_ Hfl]]].
  split; [exact Hdb | apply Hfl; reflexivity].
Defined.

(** X11: when another user already has the submitted user name or e-mail
    address, [profile] writes nothing: the database and the session are
    unchanged and the form is shown again; if the form was valid and the
    password accepted, the flashed message is the "already taken" one. *)
Theorem profile_name_taken `{Externals}
    (db : DB) (sess : session) (req : Request) (form : EditProfileForm)
    (U r : User.t) :
  add_user_to_g db sess = Some U ->
  In r (users db) ->
  User.id r <> User.id U ->
  (User.username r = data_str (f_username form)
   \/ User.email r = data_str (f_email form)) ->
  let out := profile db sess req form in
  out_db out = db
  /\ out_session out = sess
  /\ out_response out = render_users_edit form
  /\ (validate_on_submit req form = true ->
      User_authenticate db (User.username U) (data_str (f_password form))
      <> None ->
      out_flashes out = [("Username or email already taken.", "danger")]).
Proof.
  intros Hg Hr Hid Hdup out. subst out. unfold profile. rewrite Hg.
  destruct (validate_on_submit req form);
    [|repeat split; try reflexivity; discriminate].
  destruct (User_authenticate db (User.username U)
              (data_str (f_password form)));
    [|repeat split; try reflexivity; intros _ Hc; contradiction].
  unfold commit_user_update. cbn [User.id User.username User.email].
  match goal with |- context [existsb ?f (users db)] =>
    assert (Hex : existsb f (users db) = true) end.
  { apply existsb_exists. exists r. split; [exact Hr|].
    apply andb_true_iff. split; [apply negb_true_iff, Z.eqb_neq, Hid|].
    apply orb_true_iff.
    destruct Hdup as [E|E]; [left | right]; apply String.eqb_eq, E. }
  rewrite Hex. repeat split; reflexivity.
Qed.

Lemma profile_name_taken_witness :
  let form :=
    mkEditProfileForm (submitted "ann") (submitted "bobby@example.com")
                      (submitted "") (submitted "") (submitted "")
                      (submitted "") (submitted "bob") in
  let out :=
    @profile toy_externals demo_db (Some 2) (mkRequest POST true None) form in
  out_db out = demo_db
  /\ out_flashes out = [("Username or email already taken.", "danger")].
Proof.
  intros form out.
  assert (Hid : User.id (mk_user 1 "ann") <> User.id (mk_user 2 "bob"))
    by (simpl; lia).
  destruct (@profile_name_taken toy_externals demo_db (Some 2)
              (mkRequest POST true None) form (mk_user 2 "bob")
              (mk_user 1 "ann") eq_refl (or_introl eq_refl) Hid
              (or_introl eq_refl)) as [Hdb [_ [_ Hfl]]].
  split; [exact Hdb|]. apply Hfl; [reflexivity | discriminate].
Defined.

(** ** Profile update keeps the schema *)

Lemma map_id_update (u' : User.t) (l : list User.t) :
  map User.id (map (fun r => if User.id r =? User.id u' then u' else r) l)
  = map User.id l.
Proof.
  induction l as [|y t IH]; simpl; [reflexivity|]. rewrite IH. f_equal.
  destruct (Z.eqb_spec (User.id y) (User.id u')) as [E|E]; congruence.
Qed.

Lemma in_map_update (u' z : User.t) (l : list User.t) :
  In z (map (fun r => if User.id r =? User.id u' then u' else r) l) ->
  (z = u' /\ In (User.id u') (map User.id l))
  \/ (In z l /\ User.id z <> User.id u').
Proof.
  intros Hz. apply in_map_iff in Hz. destruct Hz as [r [E Hr]].
  destruct (Z.eqb_spec (User.id r) (User.id u')) as [Ei|Ei].
  - left. split; [congruence|]. rewrite <- Ei. apply in_map, Hr.
  - right. subst z. auto.
Qed.

(** A unique column stays unique under an update that was checked against
    the other rows. *)
Lemma NoDup_map_update {K : Type} (key : User.t -> K) (u' : User.t)
    (l : list User.t) :
  NoDup (map key l) ->
  (forall r, In r l -> User.id r <> User.id u' -> key r <> key u') ->
  NoDup (map User.id l) ->
  NoDup (map key (map (fun r => if User.id r =? User.id u' then u' else r) l)).
Proof.
  intros Hk Hother Hid. induction l as [|y t IH]; simpl; [constructor|].
  inversion Hk as [|? ? Hy Hk']; subst.
  inversion Hid as [|? ? Hiy Hid']; subst.
  assert (IHt : NoDup (map key (map (fun r => if User.id r =? User.id u'
                                              then u' else r) t))).
  { apply IH; [exact Hk'| |exact Hid'].
    intros r Hr. apply Hother. now right. }
  constructor; [|exact IHt].
  intros Hin. apply in_map_iff in Hin. destruct Hin as [z [Ez Hz]].
  apply in_map_update in Hz.
  destruct (Z.eqb_spec (User.id y) (User.id u')) as [E|E].
  - destruct Hz as [[_ Hdup]|[Hz Hne]].
    + apply Hiy. rewrite E. exact Hdup.
    + apply (Hother z); [now right | exact Hne | exact Ez].
  - destruct Hz as [[-> _]|[Hz Hne]].
    + apply (Hother y); [now left | exact E | symmetry; exact Ez].
    + apply Hy. rewrite <- Ez. apply in_map, Hz.
Qed.

Lemma schema_ok_user_update (db db' : DB) (u' : User.t) :
  schema_ok db -> commit_user_update db u' = Some db' -> schema_ok db'.
Proof.
  intros [Hpu Hun Hue Hpm Hpf Hpl Hfm Hff Hfl]. unfold commit_user_update.
  destruct (existsb _ (users db)) eqn:Ex; [discriminate|].
  intros E. injection E as <-.
  assert (Hother : forall r, In r (users db) -> User.id r <> User.id u' ->
            User.username r <> User.username u'
            /\ User.email r <> User.email u').
  { intros r Hr Hne.
    pose proof (proj1 (existsb_false_iff _ _) Ex r Hr) as H. simpl in H.
    apply andb_false_iff in H. destruct H as [H|H].
    - apply negb_false_iff, Z.eqb_eq in H. contradiction.
    - apply orb_false_iff in H. destruct H as [H1 H2].
      apply String.eqb_neq in H1, H2. auto. }
  constructor; simpl; rewrite ?map_id_update; try assumption.
  - apply NoDup_map_update; [exact Hun| |exact Hpu].
    intros r Hr Hne. apply (Hother r Hr Hne).
  - apply NoDup_map_update; [exact Hue| |exact Hpu].
    intros r Hr Hne. apply (Hother r Hr Hne).
Qed.

(** X12: whatever the request, [profile] leaves a database that satisfied
    its schema in one that does: user names and e-mail addresses stay
    unique, ids stay as they were. *)
Theorem profile_schema_ok `{Externals}
    (db : DB) (sess : session) (req : Request) (form : EditProfileForm) :
  schema_ok db -> schema_ok (out_db (profile db sess req form)).
Proof.
  intros Hok. unfold profile.
  destruct (add_user_to_g db sess) as [U|]; [|exact Hok].
  destruct (validate_on_submit req form); [|exact Hok].
  destruct (User_authenticate db (User.username U)
              (data_str (f_password form))); [|exact Hok].
  match goal with |- context [commit_user_update db ?u] =>
    destruct (commit_user_update db u) as [db'|] eqn:Ec end; [|exact Hok].
  exact (schema_ok_user_update db db' _ Hok Ec).
Qed.

Lemma profile_schema_ok_witness :
  let out :=
    @profile toy_externals demo_db (Some 2) (mkRequest POST true None)
             demo_form in
  schema_ok (out_db out)
  /\ map User.username (users (out_db out))
     = ["ann"; "bobby"; "cat"; "dan"; "eve"].
Proof.
  intros out. split; [|reflexivity].
  apply (@profile_schema_ok toy_externals demo_db (Some 2)
           (mkRequest POST true None) demo_form demo_schema_ok).
Defined.

(** ** Signup, login and logout (app.py) *)










(** X16: [login] never writes to the database.  Over a table with unique
    ids, a valid form with credentials [User.authenticate] accepts for [u]
    puts the id of [u] in the session, so that [u] is the [g.user] of the
    next request, and greets [u]; in every other case the session is left
    as it was and the form is shown again. *)
Theorem login_session `{Externals}
    (db : DB) (sess : session) (req : Request) (form : LoginForm) :
  schema_ok db ->
  let out := login db sess req form in
  let auth := User_authenticate db (data_str (l_username form))
                                (data_str (l_password form)) in
  res_db out = db
  /\ (forall u,
        submitted_and req (LoginForm_validate form) = true ->
        auth = Some u ->
        res_page out = page_of (redirect to_root)
        /\ res_session out = Some (User.id u)
        /\ add_user_to_g db (res_session out) = Some u
        /\ res_flashes out
           = [(("Hello, " ++ User.username u ++ "!")%string, "success")])
  /\ (submitted_and req (LoginForm_validate form) = false \/ auth = None ->
      res_page out = render_users_login form /\ res_session out = sess).
Proof.
  intros Hok out auth. subst out auth. unfold login.
  destruct (submitted_and req (LoginForm_validate form)).
  - destruct (User_authenticate db (data_str (l_username form))
                (data_str (l_password form))) as [u|] eqn:Ea.
    + split; [reflexivity|]. split.
      * intros u' _ Eu. injection Eu as <-.
        cbn [res_page res_session res_flashes].
        repeat split; try reflexivity.
        unfold do_login, add_user_to_g, User_query_get.
        apply find_by_id; [apply (pk_users db Hok)|].
        unfold User_authenticate, User_by_username in Ea.
        destruct (find _ (users db)) as [r|] eqn:Ef; [|discriminate].
        destruct (check_password_hash (User.password r) _); [|discriminate].
        injection Ea as <-. apply find_some in Ef. apply Ef.
      * intros [H0|H0]; discriminate H0.
    + split; [reflexivity|]. split.
      * intros u' _ Eu. discriminate Eu.
      * intros _. split; reflexivity.
  - split; [reflexivity|]. split.
    + intros u' Hv. discriminate Hv.
    + intros _. split; reflexivity.
Qed.

Lemma login_session_witness :
  let db' :=
    res_db (@signup toy_externals demo_db None (mkRequest POST true None)
                    demo_signup_form 6 "salt") in
  let out := @login toy_externals db' (Some 2) (mkRequest POST true None)
                    demo_login_form in
  res_session out = Some 6
  /\ res_flashes out = [("Hello, fay!", "success")]
  /\ res_session (@login toy_externals db' (Some 2) (mkRequest GET true None)
                         demo_login_form) = Some 2.
Proof.
  intros db' out.
  assert (Hok : schema_ok db').
  { constructor; simpl.
    - repeat constructor; simpl; intuition discriminate.
    - repeat constructor; simpl; intuition discriminate.
    - repeat constructor; simpl; intuition discriminate.
    - repeat constructor; simpl; intuition discriminate.
    - repeat constructor; simpl; intuition discriminate.
    - repeat constructor; simpl; intuition discriminate.
    - intros m Hm. repeat (destruct Hm as [<-|Hm]; [simpl; tauto|]).
      contradiction.
    - intros f Hf. repeat (destruct Hf as [<-|Hf]; [simpl; tauto|]).
      contradiction.
    - intros l Hl. repeat (destruct Hl as [<-|Hl]; [simpl; tauto|]).
      contradiction. }
  destruct (@login_session toy_externals db' (Some 2)
              (mkRequest POST true None) demo_login_form Hok)
    as [_ [Hyes _]].
  destruct (Hyes (@signup_row toy_externals demo_signup_form 6 "salt")
                 eq_refl eq_refl) as [_ [Hs [_ Hf]]].
  destruct (@login_session toy_externals db' (Some 2)
              (mkRequest GET true None) demo_login_form Hok)
    as [_ [_ Hno]].
  destruct (Hno (or_introl eq_refl)) as [_ Hs'].
  split; [exact Hs|]. split; [exact Hf | exact Hs'].
Defined.

(** X17: without a user behind the session, every view that changes data
    or shows follow lists stops at its guard: it flashes
    "Access unauthorized.", redirects to "/", and leaves database and
    session as they were. *)
Theorem views_need_a_user `{Externals}
    (db : DB) (sess : session) (req : Request) (form : EditProfileForm)
    (i : Z) :
  add_user_to_g db sess = None ->
  add_follow db sess i = unauthorized db sess
  /\ stop_following db sess i = unauthorized db sess
  /\ profile db sess req form = unauthorized db sess
  /\ delete_user db sess = unauthorized db sess
  /\ toggle_like db sess req i = unauthorized db sess
  /\ show_following db sess i = result_of (unauthorized db sess)
  /\ users_followers db sess i = result_of (unauthorized db sess)
  /\ out_db (unauthorized db sess) = db
  /\ out_session (unauthorized db sess) = sess.
Proof.
  intros Hg.
  unfold add_follow, stop_following, profile, delete_user, toggle_like,
    show_following, users_followers.
  rewrite Hg. repeat split; reflexivity.
Qed.

Lemma views_need_a_user_witness :
  delete_user demo_db (Some 77) = unauthorized demo_db (Some 77)
  /\ out_db (toggle_like demo_db None (mkRequest POST true None) 13) = demo_db.
Proof.
  destruct (@views_need_a_user toy_externals demo_db (Some 77)
              (mkRequest POST true None) demo_form 13 eq_refl)
    as [_ [_ [_ [Hdel _]]]].
  destruct (@views_need_a_user toy_externals demo_db None
              (mkRequest POST true None) demo_form 13 eq_refl)
    as [_ [_ [_ [_ [Hlike _]]]]].
  split; [exact Hdel | rewrite Hlike; reflexivity].
Defined.

(** X18: a session stops naming a user when the user logs out and when
    the account is deleted: after [logout] the session holds no id, and
    after [delete_user] the id the session held (also in a copy of the
    session that was not cleared) is the id of no row. *)
Theorem session_ends (db : DB) (sess : session) (U : User.t) :
  add_user_to_g db sess = Some U ->
  add_user_to_g db (res_session (logout db sess)) = None
  /\ add_user_to_g (out_db (delete_user db sess))
                   (out_session (delete_user db sess)) = None
  /\ add_user_to_g (out_db (delete_user db sess)) sess = None.
Proof.
  intros Hg. split; [reflexivity|].
  unfold delete_user. rewrite Hg. cbn [out_db out_session].
  split; [reflexivity|].
  destruct (add_user_to_g_Some db sess U Hg) as [-> _].
  unfold add_user_to_g, User_query_get.
  destruct (find (fun u => User.id u =? User.id U)
                 (users (delete_user_cascade db U))) as [r|] eqn:Ef;
    [|reflexivity].
  apply find_some in Ef. destruct Ef as [Hr E]. apply Z.eqb_eq in E.
  apply in_users_after_delete in Hr. tauto.
Qed.

Lemma session_ends_witness :
  add_user_to_g (out_db (delete_user demo_db (Some 5))) (Some 5) = None.
Proof.
  destruct (session_ends demo_db (Some 5) (mk_user 5 "eve") eq_refl)
    as [_ [_ H]].
  exact H.
Defined.

(** ** What the pages show (app.py) *)

Lemma in_order_by {A} (leb : A -> A -> bool) (l : list A) (x : A) :
  In x (order_by leb l) <-> In x l.
Proof.
  split; apply Permutation_in;
    [apply order_by_perm | apply Permutation_sym, order_by_perm].
Qed.

Lemma liked_true (db : DB) (uid mid : Z) :
  liked db uid mid = true <-> In (Likes.mk uid mid) (likes db).
Proof.
  unfold liked. rewrite existsb_exists. split.
  - intros [l [Hl E]]. apply like_row_eq in E. now subst l.
  - intros Hin. exists (Likes.mk uid mid). split; [exact Hin|].
    apply like_row_eq. reflexivity.
Qed.

Lemma in_user_likes (db : DB) (u : User.t) (m : Message.t) :
  In m (user_likes db u) <->
  In m (messages db) /\ liked db (User.id u) (Message.id m) = true.
Proof.
  unfold user_likes. rewrite in_flat_map, liked_true. split.
  - intros [l [Hl Hm]].
    destruct (Z.eqb_spec (Likes.user_id l) (User.id u)) as [E|E];
      [|contradiction].
    apply filter_In in Hm. destruct Hm as [Hm E2]. apply Z.eqb_eq in E2.
    split; [exact Hm|]. destruct l as [a b]; simpl in *.
    rewrite <- E, <- E2. exact Hl.
  - intros [Hm Hl]. exists (Likes.mk (User.id u) (Message.id m)).
    split; [exact Hl|]. simpl. rewrite Z.eqb_refl.
    apply filter_In. split; [exact Hm | apply Z.eqb_refl].
Qed.

Lemma in_liked_messages (db : DB) (u : User.t) (m : Message.t) :
  In m (liked_messages db u) <->
  In m (messages db) /\ liked db (User.id u) (Message.id m) = true.
Proof.
  unfold liked_messages. rewrite in_order_by, in_flat_map, liked_true. split.
  - intros [m' [Hm' Hin]]. apply in_map_iff in Hin.
    destruct Hin as [l [<- Hl]]. apply filter_In in Hl.
    destruct Hl as [Hl E]. apply andb_true_iff in E. destruct E as [E1 E2].
    apply Z.eqb_eq in E1, E2. split; [exact Hm'|].
    destruct l as [a b]; simpl in *. rewrite <- E1, <- E2. exact Hl.
  - intros [Hm Hl]. exists m. split; [exact Hm|]. apply in_map_iff.
    exists (Likes.mk (User.id u) (Message.id m)). split; [reflexivity|].
    apply filter_In. split; [exact Hl|]. simpl. now rewrite !Z.eqb_refl.
Qed.

Lemma in_liked_ids_of (db : DB) (u : User.t) (i : Z) :
  In i (liked_ids_of db (Some u)) <->
  In i (map Message.id (messages db)) /\ liked db (User.id u) i = true.
Proof.
  unfold liked_ids_of, id_set. rewrite nodup_In, !in_map_iff. split.
  - intros [m [<- Hm]]. apply in_user_likes in Hm. destruct Hm as [Hm Hl].
    split; [exists m; auto | exact Hl].
  - intros [[m [<- Hm]] Hl]. exists m. split; [reflexivity|].
    apply in_user_likes. auto.
Qed.

(** X19: the [liked_ids] handed to the templates hold each id once, and
    hold an id exactly when it is the id of an existing message that the
    logged-in user likes; without a user the set is empty. *)
Theorem liked_ids_of_spec (db : DB) (u : User.t) (i : Z) :
  (In i (liked_ids_of db (Some u)) <->
   In i (map Message.id (messages db)) /\ liked db (User.id u) i = true)
  /\ NoDup (liked_ids_of db (Some u))
  /\ liked_ids_of db None = [].
Proof.
  split; [apply in_liked_ids_of|].
  split; [apply NoDup_nodup | reflexivity].
Qed.

(** X20: [show_likes] needs no login; for a missing id it answers 404,
    and for the user with that id it lists, newest first, exactly the
    messages of the table that this user likes, writing nothing. *)
Theorem show_likes_lists_liked (db : DB) (sess : session) (i : Z) :
  (User_query_get db i = None ->
   show_likes db sess i = mkResult (page_of abort_404) [] db sess)
  /\ forall user, User_query_get db i = Some user ->
       exists msgs ids,
         show_likes db sess i
         = mkResult (render_users_likes user msgs ids) [] db sess
         /\ (forall m, In m msgs <->
               In m (messages db)
               /\ liked db i (Message.id m) = true)
         /\ StronglySorted newer_eq msgs.
Proof.
  unfold show_likes. split.
  - intros ->. reflexivity.
  - intros user Hu. rewrite Hu. eexists _, _. split; [reflexivity|].
    destruct (User_query_get_Some db i user Hu) as [_ <-].
    split; [intros m; apply in_liked_messages|].
    unfold liked_messages.
    apply StronglySorted_impl with (R := fun a b => ts_desc a b = true).
    + intros a b. apply ts_desc_spec.
    + apply order_by_sorted; [apply ts_desc_total | apply ts_desc_trans].
Qed.

Lemma show_likes_lists_liked_witness :
  res_page (show_likes demo_db None 5)
  = render_users_likes (mk_user 5 "eve") [Message.mk 13 "fourth" 400 4] []
  /\ res_page (show_likes demo_db None 999) = page_of abort_404.
Proof.
  destruct (show_likes_lists_liked demo_db None 999) as [H404 _].
  rewrite (H404 eq_refl).
  destruct (show_likes_lists_liked demo_db None 5) as [_ H].
  destruct (H (mk_user 5 "eve") eq_refl) as [msgs [ids [E _]]].
  rewrite E. vm_compute in E. injection E as <- <-.
  split; reflexivity.
Defined.

(** X21: [users_show] needs no login; for the user with the given id it
    shows the head, newest first and of at most 100 rows, of the messages
    that user wrote, and writes nothing; for a missing id it answers
    404. *)
Theorem users_show_messages (db : DB) (sess : session) (i : Z) :
  (User_query_get db i = None ->
   users_show db sess i = mkOut abort_404 [] db sess)
  /\ forall user, User_query_get db i = Some user ->
       exists msgs ids,
         users_show db sess i
         = mkOut (render_users_show user msgs ids) [] db sess
         /\ top_of newer_eq 100
                   (filter (fun m => Message.user_id m =? User.id user)
                           (messages db))
                   msgs
         /\ (forall m, In m msgs ->
               In m (messages db) /\ Message.user_id m = User.id user)
         /\ (List.length msgs <= 100)%nat.
Proof.
  unfold users_show. split.
  - intros ->. reflexivity.
  - intros user Hu. rewrite Hu. eexists _, _. split; [reflexivity|].
    destruct (User_query_get_Some db i user Hu) as [_ <-].
    pose proof (newest_first_top 100
                  (filter (fun m => Message.user_id m =? User.id user)
                          (messages db))) as Htop.
    split; [exact Htop|]. split.
    + intros m Hm. apply (top_of_incl _ _ _ _ Htop) in Hm.
      apply filter_In in Hm. destruct Hm as [Hm E]. apply Z.eqb_eq in E. auto.
    + exact (top_of_length _ _ _ _ Htop).
Qed.

Lemma users_show_messages_witness :
  out_response (users_show demo_db None 2)
  = render_users_show (mk_user 2 "bob") [Message.mk 11 "second" 200 2] []
  /\ out_response (users_show demo_db None 999) = abort_404.
Proof.
  destruct (users_show_messages demo_db None 999) as [H404 _].
  rewrite (H404 eq_refl).
  destruct (users_show_messages demo_db None 2) as [_ H].
  destruct (H (mk_user 2 "bob") eq_refl) as [msgs [ids [E _]]].
  rewrite E. vm_compute in E. injection E as <- <-.
  split; reflexivity.
Defined.

Lemma liked_after_toggle
    (db : DB) (sess : session) (req : Request) (U : User.t) (M : Message.t) :
  add_user_to_g db sess = Some U ->
  Message_query_get db (Message.id M) = Some M ->
  Message.user_id M <> User.id U ->
  liked (out_db (toggle_like db sess req (Message.id M)))
        (User.id U) (Message.id M)
  = negb (liked db (User.id U) (Message.id M)).
Proof.
  intros Hg Hm Hna.
  destruct (toggle_like_non_author db sess req U M Hg Hm Hna)
    as [_ [_ [_ [_ [_ Hl]]]]].
  unfold liked at 1. rewrite Hl.
  destruct (liked db (User.id U) (Message.id M)) eqn:E; simpl.
  - rewrite find_existsb.
    destruct (filter_negb_none (like_row (User.id U) (Message.id M))
                (likes db)) as [_ Hf].
    rewrite Hf. reflexivity.
  - rewrite existsb_app. simpl. unfold like_row at 2. simpl.
    rewrite !Z.eqb_refl. simpl. apply orb_true_r.
Qed.

(** X22: a toggle shows on the pages: when a logged-in user [U] toggles
    an existing message [M] written by someone else, [M] is on the likes
    page of [U] afterwards exactly when it was not there before, and the
    same holds for the id of [M] in the [liked_ids] of [U]. *)
Theorem toggle_like_shows
    (db : DB) (sess : session) (req : Request) (U : User.t) (M : Message.t) :
  add_user_to_g db sess = Some U ->
  Message_query_get db (Message.id M) = Some M ->
  Message.user_id M <> User.id U ->
  let db' := out_db (toggle_like db sess req (Message.id M)) in
  (In M (liked_messages db' U) <-> ~ In M (liked_messages db U))
  /\ (In (Message.id M) (liked_ids_of db' (Some U)) <->
      ~ In (Message.id M) (liked_ids_of db (Some U))).
Proof.
  intros Hg Hm Hna db'.
  pose proof (liked_after_toggle db sess req U M Hg Hm Hna) as Hflip.
  fold db' in Hflip.
  destruct (toggle_like_non_author db sess req U M Hg Hm Hna)
    as [_ [_ [_ [Hmsgs _]]]].
  fold db' in Hmsgs.
  assert (HM : In M (messages db)).
  { unfold Message_query_get in Hm. apply find_some in Hm. apply Hm. }
  assert (Hids : In (Message.id M) (map Message.id (messages db)))
    by (apply in_map, HM).
  split.
  - rewrite !in_liked_messages, Hmsgs, Hflip.
    destruct (liked db (User.id U) (Message.id M)); simpl;
      intuition discriminate.
  - rewrite !in_liked_ids_of, Hmsgs, Hflip.
    destruct (liked db (User.id U) (Message.id M)); simpl;
      intuition discriminate.
Qed.

Lemma toggle_like_shows_witness :
  let db' :=
    out_db (toggle_like demo_db (Some 2) (mkRequest POST true None) 13) in
  In (Message.mk 13 "fourth" 400 4) (liked_messages db' (mk_user 2 "bob"))
  /\ In 13 (liked_ids_of db' (Some (mk_user 2 "bob"))).
Proof.
  intros db'.
  assert (Hna : Message.user_id (Message.mk 13 "fourth" 400 4)
                <> User.id (mk_user 2 "bob")) by (simpl; lia).
  destruct (toggle_like_shows demo_db (Some 2) (mkRequest POST true None)
              (mk_user 2 "bob") (Message.mk 13 "fourth" 400 4)
              eq_refl eq_refl Hna) as [H1 H2].
  split.
  - apply H1. vm_compute. intros [H|[]]. discriminate H.
  - apply H2. vm_compute. intros [H|[]]. discriminate H.
Defined.

(** ** Start-up and response headers (app.py) *)

Lemma prefix_app (p s : string) :
  String.prefix p s = true <-> exists rest, s = (p ++ rest)%string.
Proof.
  revert s. induction p as [|c p IH]; intros s; simpl.
  - split; [intros _; exists s; reflexivity | intros _; now destruct s].
  - destruct s as [|d s]; simpl.
    + split; [discriminate | intros [rest E]; discriminate E].
    + destruct (Ascii.ascii_dec c d) as [->|Hne].
      * rewrite IH. split; intros [rest E]; exists rest; congruence.
      * split; [discriminate|]. intros [rest E]. congruence.
Qed.

Lemma str_drop_app (p rest : string) :
  str_drop (String.length p) (p ++ rest)%string = rest.
Proof. induction p as [|c p IH]; simpl; [reflexivity | exact IH]. Qed.

(** X23: the database URI.  A value of [DATABASE_URL] that starts with
    [postgres://] has that scheme replaced by [postgresql://] and the rest
    kept; any other value is used as it is, and without a value the local
    default is used.  The result never starts with [postgres://], so
    feeding it back in changes nothing. *)
Theorem database_uri_scheme (env : option string) :
  (forall rest, env = Some ("postgres://" ++ rest)%string ->
     database_uri env = ("postgresql://" ++ rest)%string)
  /\ (forall s, env = Some s -> String.prefix "postgres://" s = false ->
        database_uri env = s)
  /\ database_uri None = "postgresql:///warbler"
  /\ String.prefix "postgres://" (database_uri env) = false
  /\ database_uri (Some (database_uri env)) = database_uri env.
Proof.
  assert (Hrepl : forall rest,
            database_uri (Some ("postgres://" ++ rest)%string)
            = ("postgresql://" ++ rest)%string).
  { intros rest. unfold database_uri.
    rewrite (proj2 (prefix_app "postgres://" _)) by (exists rest; reflexivity).
    destruct rest; reflexivity. }
  assert (Hkeep : forall s, String.prefix "postgres://" s = false ->
            database_uri (Some s) = s).
  { intros s Hs. unfold database_uri. rewrite Hs. reflexivity. }
  assert (Hnever : String.prefix "postgres://" (database_uri env) = false).
  { destruct env as [s|]; [|reflexivity].
    destruct (String.prefix "postgres://" s) eqn:Hs.
    - apply prefix_app in Hs. destruct Hs as [rest ->]. rewrite Hrepl.
      reflexivity.
    - rewrite (Hkeep s Hs). exact Hs. }
  split; [intros rest ->; apply Hrepl|].
  split; [intros s -> Hs; apply Hkeep, Hs|].
  split; [reflexivity|]. split; [exact Hnever|].
  apply Hkeep, Hnever.
Qed.

Lemma database_uri_scheme_witness :
  database_uri (Some "postgres://u:p@host:5432/warbler")
  = "postgresql://u:p@host:5432/warbler"
  /\ database_uri (Some "sqlite:///test.db") = "sqlite:///test.db".
Proof.
  destruct (database_uri_scheme (Some "postgres://u:p@host:5432/warbler"))
    as [H1 _].
  destruct (database_uri_scheme (Some "sqlite:///test.db")) as [_ [H2 _]].
  split; [apply (H1 "u:p@host:5432/warbler"); reflexivity|].
  apply (H2 "sqlite:///test.db"); reflexivity.
Defined.

Lemma same_header_eq (a b : string) :
  same_header a b = true <-> lower a = lower b.
Proof. unfold same_header. apply String.eqb_eq. Qed.

Lemma same_header_other (a k k' : string) :
  same_header a k = true -> same_header k k' = false ->
  same_header a k' = false.
Proof.
  intros H1 H2. apply same_header_eq in H1.
  unfold same_header in *. rewrite H1. exact H2.
Qed.

Lemma find_filter_implied {A} (p q : A -> bool) (l : list A) :
  (forall x, p x = true -> q x = true) ->
  find p (filter q l) = find p l.
Proof.
  intros Hpq. induction l as [|x t IH]; simpl; [reflexivity|].
  destruct (q x) eqn:Eq; simpl.
  - destruct (p x); [reflexivity | exact IH].
  - destruct (p x) eqn:Ep; [|exact IH].
    rewrite (Hpq x Ep) in Eq. discriminate Eq.
Qed.

Lemma headers_get_set_same (h : list (string * string)) (k v : string) :
  headers_get (headers_set h k v) k = Some v.
Proof.
  unfold headers_get.
  assert (Hk : same_header k k = true) by (apply same_header_eq; reflexivity).
  induction h as [|e t IH]; simpl.
  - rewrite Hk. reflexivity.
  - destruct (same_header (fst e) k) eqn:E; simpl.
    + rewrite Hk. reflexivity.
    + rewrite E. exact IH.
Qed.

Lemma headers_get_set_other (h : list (string * string)) (k v k' : string) :
  same_header k k' = false ->
  headers_get (headers_set h k v) k' = headers_get h k'.
Proof.
  intros Hne. unfold headers_get. induction h as [|e t IH]; simpl.
  - rewrite Hne. reflexivity.
  - destruct (same_header (fst e) k) eqn:E; simpl.
    + rewrite Hne, (same_header_other _ _ _ E Hne).
      rewrite find_filter_implied; [reflexivity|].
      intros x Hx. apply negb_true_iff.
      destruct (same_header (fst x) k) eqn:Ex; [|reflexivity].
      rewrite (same_header_other _ _ _ Ex Hne) in Hx. discriminate Hx.
    + destruct (same_header (fst e) k'); [reflexivity | exact IH].
Qed.

Lemma headers_set_once (h : list (string * string)) (k v : string) :
  filter (fun e => same_header (fst e) k) (headers_set h k v) = [(k, v)].
Proof.
  assert (Hk : same_header k k = true) by (apply same_header_eq; reflexivity).
  induction h as [|e t IH]; simpl.
  - rewrite Hk. reflexivity.
  - destruct (same_header (fst e) k) eqn:E; simpl.
    + rewrite Hk. f_equal. apply filter_nothing.
      intros x Hx. apply filter_In in Hx. destruct Hx as [_ Hx].
      apply negb_true_iff in Hx. exact Hx.
    + rewrite E. exact IH.
Qed.

(** X24: [add_header] assigns [Cache-Control] twice, and the second
    assignment wins: whatever headers the response had (in any spelling
    of the names), afterwards it has exactly one [Cache-Control] entry,
    with the value [public, max-age=0], and [Pragma] is [no-cache] and
    [Expires] is [0]; the no-store value never survives, and headers of
    other names read as before. *)
Theorem add_header_final (h : list (string * string)) :
  headers_get (add_header h) "Cache-Control" = Some "public, max-age=0"
  /\ filter (fun e => same_header (fst e) "Cache-Control") (add_header h)
     = [("Cache-Control", "public, max-age=0")]
  /\ headers_get (add_header h) "Pragma" = Some "no-cache"
  /\ headers_get (add_header h) "Expires" = Some "0"
  /\ forall k,
       same_header "Cache-Control" k = false ->
       same_header "Pragma" k = false ->
       same_header "Expires" k = false ->
       headers_get (add_header h) k = headers_get h k.
Proof.
  unfold add_header.
  split; [apply headers_get_set_same|].
  split; [apply headers_set_once|].
  split.
  { rewrite headers_get_set_other by reflexivity.
    rewrite headers_get_set_other by reflexivity.
    apply headers_get_set_same. }
  split.
  { rewrite headers_get_set_other by reflexivity.
    apply headers_get_set_same. }
  intros k Hc Hp He.
  rewrite (headers_get_set_other _ _ _ _ Hc).
  rewrite (headers_get_set_other _ _ _ _ He).
  rewrite (headers_get_set_other _ _ _ _ Hp).
  apply (headers_get_set_other _ _ _ _ Hc).
Qed.

Lemma add_header_final_witness :
  add_header [("content-type", "text/html"); ("cache-control", "private");
              ("CACHE-CONTROL", "no-store")]
  = [("content-type", "text/html"); ("Cache-Control", "public, max-age=0");
     ("Pragma", "no-cache"); ("Expires", "0")]
  /\ headers_get
       (add_header [("content-type", "text/html"); ("cache-control", "private");
                    ("CACHE-CONTROL", "no-store")])
       "Content-Type" = Some "text/html".
Proof.
  split; [reflexivity|].
  destruct (add_header_final
              [("content-type", "text/html"); ("cache-control", "private");
               ("CACHE-CONTROL", "no-store")]) as [_ [_ [_ [_ H]]]].
  rewrite (H "Content-Type"); reflexivity.
Defined.

(** ** Following, the suggestions and the feed *)

Lemma length_filter_le {A} (p : A -> bool) (l : list A) :
  (List.length (filter p l) <= List.length l)%nat.
Proof.
  induction l as [|x t IH]; simpl; [lia|]. destruct (p x); simpl; lia.
Qed.

(** X25: once the logged-in user [U] has followed [V], no call of
    [suggested_users_for(U, limit)] on the new database returns [V]. *)
Theorem follow_removes_suggestion
    (db : DB) (sess : session) (U V : User.t) (T : Z) (lim : nat) :
  add_user_to_g db sess = Some U ->
  User_query_get db T = Some V ->
  is_following db U V = false ->
  ~ In V (suggested_users_for (out_db (add_follow db sess T)) (Some U) lim).
Proof.
  intros Hg HT Hnot Hin.
  rewrite (add_follow_new_outcome db sess U V T Hg HT Hnot) in Hin.
  cbn [out_db] in Hin.
  destruct (User_query_get_Some db T V HT) as [HV _].
  destruct (add_user_to_g_Some db sess U Hg) as [_ [HU _]].
  apply suggested_users_for_In in Hin. destruct Hin as [_ Hf].
  apply suggest_filter_spec in Hf; [|exact HU|exact HV].
  destruct Hf as [_ Hf].
  assert (Hyes : is_following
                   (mkDB (users db) (messages db)
                         (follows db ++ [Follows.mk (User.id V) (User.id U)])
                         (likes db)) U V = true).
  { apply is_following_true. exists V. split; [exact HV|].
    split; [reflexivity|]. simpl. apply in_or_app. right. now left. }
  congruence.
Qed.

Lemma follow_removes_suggestion_witness :
  In (mk_user 5 "eve") (suggested_users_for demo_db (Some (mk_user 2 "bob")) 5)
  /\ ~ In (mk_user 5 "eve")
          (suggested_users_for (out_db (add_follow demo_db (Some 2) 5))
                               (Some (mk_user 2 "bob")) 5).
Proof.
  split; [vm_compute; tauto|].
  exact (follow_removes_suggestion demo_db (Some 2) (mk_user 2 "bob")
           (mk_user 5 "eve") 5 5 eq_refl eq_refl eq_refl).
Defined.

(** X26: in a database that satisfies its schema, once the logged-in user
    [U] has unfollowed another user [V], [V] is a candidate again:
    [suggested_users_for(U, limit)] returns [V] whenever [limit] is at
    least the number of users. *)
Theorem unfollow_restores_suggestion
    (db : DB) (sess : session) (U V : User.t) (T : Z) (lim : nat) :
  schema_ok db ->
  add_user_to_g db sess = Some U ->
  User_query_get db T = Some V ->
  is_following db U V = true ->
  User.id V <> User.id U ->
  (List.length (users db) <= lim)%nat ->
  In V (suggested_users_for (out_db (stop_following db sess T)) (Some U) lim).
Proof.
  intros Hok Hg HT Hfol Hne Hlim.
  rewrite (stop_following_followed_outcome db sess U V T Hok Hg HT Hfol).
  cbn [out_db].
  destruct (User_query_get_Some db T V HT) as [HV ET].
  destruct (add_user_to_g_Some db sess U Hg) as [_ [HU _]].
  set (db' := mkDB (users db) (messages db)
                   (filter
                      (fun f => negb ((Follows.user_following_id f =? User.id U)
                                      && (Follows.user_being_followed_id f =? T)))
                      (follows db))
                   (likes db)).
  assert (Hnot : is_following db' U V = false).
  { destruct (is_following db' U V) eqn:E; [|reflexivity].
    apply is_following_true in E. destruct E as [_ [_ [_ Hin]]].
    cbn [db' follows] in Hin. apply filter_In in Hin. destruct Hin as [_ Hin].
    simpl in Hin. rewrite ET, !Z.eqb_refl in Hin. discriminate Hin. }
  assert (Hcand : In V (filter (suggest_filter db' U) (users db'))).
  { apply filter_In. split; [exact HV|].
    apply (suggest_filter_spec db' U V HU HV). auto. }
  pose proof (suggested_users_for_top db' U lim) as Htop.
  apply (Permutation_in V (Permutation_sym
           (top_of_all _ _ _ _ Htop
              (Nat.le_trans _ _ _ (length_filter_le _ _) Hlim)))).
  exact Hcand.
Qed.

Lemma unfollow_restores_suggestion_witness :
  ~ In (mk_user 4 "dan") (suggested_users_for demo_db (Some (mk_user 2 "bob")) 5)
  /\ In (mk_user 4 "dan")
        (suggested_users_for (out_db (stop_following demo_db (Some 2) 4))
                             (Some (mk_user 2 "bob")) 5).
Proof.
  split.
  - vm_compute. intros [H|[H|[]]]; discriminate H.
  - apply (unfollow_restores_suggestion demo_db (Some 2) (mk_user 2 "bob")
             (mk_user 4 "dan") 4 5 demo_schema_ok eq_refl eq_refl eq_refl).
    + simpl. lia.
    + simpl. lia.
Defined.

Lemma homepage_with_following (db : DB) (sess : session) (U : User.t) :
  add_user_to_g db sess = Some U ->
  following db U <> [] ->
  homepage db sess
  = mkOut (render_home
             (limit 100
                (order_by ts_desc
                   (filter (by_self_or_followee db U) (messages db))))
             (liked_ids_of db (Some U))
             (suggested_users_for db (Some U) 5))
          [] db sess.
Proof.
  intros Hg Hne. unfold homepage. rewrite Hg.
  rewrite (filter_ext _ _ (feed_ids_spec db U)).
  destruct (following db U); [contradiction | reflexivity].
Qed.

(** X27: following turns the fallback feed off, also when the user
    followed is oneself: after the logged-in user [U] has followed a user
    [V] not followed before, the home page of [U] flashes no notice and
    shows only messages by [U] or by users [U] follows; and it shows every
    message by [V] as long as at most 100 messages qualify. *)
Theorem follow_fills_feed
    (db : DB) (sess : session) (U V : User.t) (T : Z) :
  add_user_to_g db sess = Some U ->
  User_query_get db T = Some V ->
  is_following db U V = false ->
  let db' := out_db (add_follow db sess T) in
  exists feed liked sugg,
    homepage db' sess = mkOut (render_home feed liked sugg) [] db' sess
    /\ (forall m, In m feed ->
          In m (messages db) /\ by_self_or_followee db' U m = true)
    /\ ((List.length (filter (by_self_or_followee db' U) (messages db))
         <= 100)%nat ->
        forall m, In m (messages db) -> Message.user_id m = User.id V ->
          In m feed).
Proof.
  intros Hg HT Hnot db'. subst db'.
  rewrite (add_follow_new_outcome db sess U V T Hg HT Hnot). cbn [out_db].
  destruct (User_query_get_Some db T V HT) as [HV _].
  set (db' := mkDB (users db) (messages db)
                   (follows db ++ [Follows.mk (User.id V) (User.id U)])
                   (likes db)).
  assert (Hg' : add_user_to_g db' sess = Some U) by exact Hg.
  assert (Hfol : is_following db' U V = true).
  { apply is_following_true. exists V. split; [exact HV|].
    split; [reflexivity|]. simpl. apply in_or_app. right. now left. }
  assert (Hne : following db' U <> []).
  { unfold is_following in Hfol. destruct (following db' U); [|discriminate].
    discriminate Hfol. }
  rewrite (homepage_with_following db' sess U Hg' Hne).
  pose proof (newest_first_top 100
                (filter (by_self_or_followee db' U) (messages db'))) as Htop.
  eexists _, _, _. split; [reflexivity|]. split.
  - intros m Hm. apply (top_of_incl _ _ _ _ Htop) in Hm.
    apply filter_In in Hm. exact Hm.
  - intros Hsmall m Hm Hby.
    apply (Permutation_in m (Permutation_sym
             (top_of_all _ _ _ _ Htop Hsmall))).
    apply filter_In. split; [exact Hm|].
    unfold by_self_or_followee. apply orb_true_iff. right.
    apply existsb_exists. exists V. split; [exact HV|].
    rewrite Hfol. simpl. apply Z.eqb_eq, Hby.
Qed.

Lemma follow_fills_feed_witness :
  out_flashes (homepage demo_db (Some 5)) = [(feed_empty_notice, "info")]
  /\ out_response (homepage (out_db (add_follow demo_db (Some 5) 2)) (Some 5))
     = render_home [Message.mk 12 "third" 300 5; Message.mk 11 "second" 200 2]
                   [13]
                   [mk_user 4 "dan"; mk_user 3 "cat"; mk_user 1 "ann"]
  /\ out_flashes (homepage (out_db (add_follow demo_db (Some 5) 2)) (Some 5))
     = [].
Proof.
  split; [reflexivity|].
  destruct (follow_fills_feed demo_db (Some 5) (mk_user 5 "eve")
              (mk_user 2 "bob") 2 eq_refl eq_refl eq_refl)
    as [feed [liked [sugg [E _]]]].
  rewrite E. vm_compute in E. injection E as <- <- <-.
  split; reflexivity.
Defined.
